(** * mini-kuber: resource builders, serialization and submission

    A shallow embedding of [mini-kuber.js].  JavaScript values are
    embedded as a small inductive type, the six resource classes as
    records with their [constructor] and [toYAML], and [deploy] as a
    computation in a state-and-exception monad over a world made of a
    file system and a trace of observable events. *)

From Stdlib Require Import ZArith List String Ascii Bool Lia DecimalString.
Import ListNotations.
Open Scope Z_scope.
Set Warnings "-register-all".
Set Implicit Arguments.

(** ** JavaScript strings *)

(** A JavaScript string is a sequence of UTF-16 code units. *)
Definition jsstring := list Z.

Definition js (s : string) : jsstring :=
  map (fun a => Z.of_nat (nat_of_ascii a)) (list_ascii_of_string s).

Fixpoint jsstring_eqb (s t : jsstring) : bool :=
  match s, t with
  | [], [] => true
  | c :: s', d :: t' => (c =? d) && jsstring_eqb s' t'
  | _, _ => false
  end.

Fixpoint startsWith (s prefix : jsstring) : bool :=
  match prefix, s with
  | [], _ => true
  | p :: prefix', c :: s' => (c =? p) && startsWith s' prefix'
  | _ :: _, [] => false
  end.

(** [String.prototype.includes] *)
Fixpoint includes (s needle : jsstring) : bool :=
  startsWith s needle ||
  match s with
  | [] => false
  | _ :: s' => includes s' needle
  end.

(** The decimal digits of an integer. *)
Definition decimal (n : Z) : jsstring := js (NilZero.string_of_int (Z.to_int n)).

(** ** Numbers as strings *)

(** The double nearest to an integer [a >= 0], ties to even, as an
    integer: every integer below 2^53 is a double, and every double from
    2^53 on is an integer. *)
Definition nearest_double (a : Z) : Z :=
  if a <? 2 ^ 53 then a
  else
    let e := Z.log2 a - 52 in
    let q := a / 2 ^ e in
    let r := a mod 2 ^ e in
    let half := 2 ^ (e - 1) in
    let m := if r <? half then q
             else if half <? r then q + 1
             else if Z.even q then q else q + 1 in
    m * 2 ^ e.

(** The digits [s] and the position [n] that Number::toString chooses
    for a double [x >= 2^53] of [digits] decimal digits: the least [k]
    for which some [s] of [k] digits has [s * 10^(n-k)] read back as
    [x]; of two such [s], the one nearer to [x], the even one on a tie. *)
Fixpoint shortest (fuel : nat) (k : Z) (x digits : Z) : Z * Z :=
  match fuel with
  | O => (x, digits)
  | S fuel' =>
      let p := 10 ^ (digits - k) in
      let lo := x / p in
      let hi := lo + 1 in
      let lo_ok := nearest_double (lo * p) =? x in
      let hi_ok := nearest_double (hi * p) =? x in
      let up := if hi =? 10 ^ k then (1, digits + 1) else (hi, digits) in
      if lo_ok && hi_ok then
        if x - lo * p <? hi * p - x then (lo, digits)
        else if hi * p - x <? x - lo * p then up
        else if Z.even lo then (lo, digits) else up
      else if lo_ok then (lo, digits)
      else if hi_ok then up
      else shortest fuel' (k + 1) x digits
  end.

Definition zeros (n : Z) : jsstring := repeat 48 (Z.to_nat n).

(** Number::toString for a double [x >= 0] with an integer value: plain
    digits below 2^53; from there on the shortest digits that read back
    as [x], padded with zeros up to 21 digits and in exponent notation
    beyond; [Infinity] from 2^1024 on. *)
Definition positive_toString (x : Z) : jsstring :=
  if x <? 2 ^ 53 then decimal x
  else if 2 ^ 1024 <=? x then js "Infinity"
  else
    let digits := Z.of_nat (List.length (decimal x)) in
    let '(s, n) := shortest 17 1 x digits in
    let ds := decimal s in
    if n <=? 21 then ds ++ zeros (n - Z.of_nat (List.length ds))
    else
      match ds with
      | [] => []
      | [d] => [d] ++ js "e+" ++ decimal (n - 1)
      | d :: rest => [d] ++ js "." ++ rest ++ js "e+" ++ decimal (n - 1)
      end.

(** Strings of Latin-1 characters. *)
Definition latin (s : jsstring) : Prop := Forall (fun c => 0 <= c < 256) s.

(** [String(n)] for the number that the integer literal [n] denotes. *)
Definition Number_toString (n : Z) : jsstring :=
  if n <? 0 then js "-" ++ positive_toString (nearest_double (- n))
  else positive_toString (nearest_double n).

(** ** JavaScript values *)

(** Numbers are restricted to the integers (replica counts, ports and
    percentages): [VNum n] is the number that the integer literal [n]
    denotes; [NaN] and fractions are outside the model. *)
Inductive value : Type :=
| VUndefined
| VNull
| VBool (b : bool)
| VNum (n : Z)
| VStr (s : jsstring)
| VArr (items : list value)
| VObj (fields : list (jsstring * value)).

(** An object is the list of its own properties in enumeration order. *)
Definition obj := list (jsstring * value).

(** ToBoolean *)
Definition truthy (v : value) : bool :=
  match v with
  | VUndefined | VNull => false
  | VBool b => b
  | VNum n => negb (n =? 0)
  | VStr s => match s with [] => false | _ => true end
  | VArr _ | VObj _ => true
  end.

(** [a || b] *)
Definition or_else (a b : value) : value := if truthy a then a else b.
Infix "|||" := or_else (at level 50, left associativity).

(** [o.k] on an object: the own property, or [undefined]. *)
Fixpoint get (o : obj) (k : jsstring) : value :=
  match o with
  | [] => VUndefined
  | (k', v) :: o' => if jsstring_eqb k' k then v else get o' k
  end.

Fixpoint has (o : obj) (k : jsstring) : bool :=
  match o with
  | [] => false
  | (k', _) :: o' => jsstring_eqb k' k || has o' k
  end.

(** Defining an own property: an existing key keeps its position. *)
Fixpoint define (o : obj) (k : jsstring) (v : value) : obj :=
  match o with
  | [] => [(k, v)]
  | (k', v') :: o' =>
      if jsstring_eqb k' k then (k', v) :: o' else (k', v') :: define o' k v
  end.

(** [{ ...base, ...o }] *)
Definition spread (base o : obj) : obj :=
  fold_left (fun acc kv => define acc (fst kv) (snd kv)) o base.

(** [o[k] = v] on an object created by an object literal.  The key
    [__proto__] reaches the accessor inherited from [Object.prototype],
    which ignores a value that is neither an object nor [null]; [v] is
    always a string where the source assigns by computed key. *)
Definition assign (o : obj) (k : jsstring) (v : value) : obj :=
  if jsstring_eqb k (js "__proto__") then o else define o k v.

(** [String(v)] *)
Fixpoint ToString (v : value) : jsstring :=
  match v with
  | VUndefined => js "undefined"
  | VNull => js "null"
  | VBool true => js "true"
  | VBool false => js "false"
  | VNum n => Number_toString n
  | VStr s => s
  | VArr items =>
      let item x :=
        match x with
        | VUndefined | VNull => []
        | _ => ToString x
        end in
      (fix join (xs : list value) : jsstring :=
         match xs with
         | [] => []
         | [x] => item x
         | x :: xs' => item x ++ js "," ++ join xs'
         end) items
  | VObj _ => js "[object Object]"
  end.

(** Index keys [0], [1], ... of an array or string. *)
Fixpoint indexed (i : Z) (xs : list value) : obj :=
  match xs with
  | [] => []
  | x :: xs' => (decimal i, x) :: indexed (i + 1) xs'
  end.

(** [Object.entries(v)] for a value that is neither [undefined] nor
    [null]. *)
Definition entries (v : value) : obj :=
  match v with
  | VObj fields => fields
  | VArr items => indexed 0 items
  | VStr s => indexed 0 (map (fun c => VStr [c]) s)
  | _ => []
  end.

(** ** Resources *)

(** [class Resource]: the fields every resource carries. *)
Module Resource.
Record t := {
  kind : jsstring;
  name : jsstring;
  namespace : value;
  labels : obj;
  annotations : obj
}.

(** Every subclass passes [namespace], so the default of the parameter
    is never used. *)
Definition constructor (kind name : jsstring) (namespace : value) : t :=
  {| kind := kind;
     name := name;
     namespace := namespace;
     labels := [(js "app", VStr name); (js "managed-by", VStr (js "mini-kuber"))];
     annotations := [] |}.

(** The resource after an assignment into [this.labels]. *)
Definition with_labels (r : t) (l : obj) : t :=
  {| kind := kind r; name := name r; namespace := namespace r;
     labels := l; annotations := annotations r |}.
End Resource.

(** The [env] entries of a container: [{ name, value: String(value) }]. *)
Definition env_entries (env : value) : list value :=
  map (fun kv => VObj [(js "name", VStr (fst kv));
                       (js "value", VStr (ToString (snd kv)))])
      (entries env).

(** Optional [ports] and [env] members of a container. *)
Definition container_ports (port : value) : obj :=
  if truthy port
  then [(js "ports", VArr [VObj [(js "containerPort", port)]])]
  else [].

Definition container_env (env : value) : obj :=
  match entries env with
  | [] => []
  | _ :: _ => [(js "env", VArr (env_entries env))]
  end.

Module Deployment.
Record t := {
  base : Resource.t;
  image : value;
  replicas : value;
  port : value;
  env : value;
  cpuRequest : value;
  memoryRequest : value;
  cpuLimit : value;
  memoryLimit : value
}.

Definition constructor (name : jsstring) (options : obj) : t :=
  let super :=
    Resource.constructor (js "Deployment") name
      (get options (js "namespace") ||| VStr (js "default")) in
  {| base :=
       match get options (js "autoHeal") with
       | VBool false => super
       | _ => Resource.with_labels super
                (define (Resource.labels super) (js "auto-heal") (VStr (js "true")))
       end;
     image := get options (js "image") ||| VStr (js "nginx:latest");
     replicas := get options (js "replicas") ||| VNum 1;
     port := get options (js "port");
     env := get options (js "env") ||| VObj [];
     cpuRequest := get options (js "cpuRequest") ||| VStr (js "100m");
     memoryRequest := get options (js "memoryRequest") ||| VStr (js "128Mi");
     cpuLimit := get options (js "cpuLimit") ||| VStr (js "500m");
     memoryLimit := get options (js "memoryLimit") ||| VStr (js "512Mi") |}.

Definition toYAML (this : t) : value :=
  let name := Resource.name (base this) in
  let container :=
    [(js "name", VStr name);
     (js "image", image this);
     (js "resources",
       VObj [(js "requests", VObj [(js "cpu", cpuRequest this);
                                   (js "memory", memoryRequest this)]);
             (js "limits", VObj [(js "cpu", cpuLimit this);
                                 (js "memory", memoryLimit this)])])]
    ++ container_ports (port this)
    ++ container_env (env this) in
  VObj
    [(js "apiVersion", VStr (js "apps/v1"));
     (js "kind", VStr (js "Deployment"));
     (js "metadata",
       VObj [(js "name", VStr name);
             (js "namespace", Resource.namespace (base this));
             (js "labels", VObj (Resource.labels (base this)));
             (js "annotations", VObj (Resource.annotations (base this)))]);
     (js "spec",
       VObj [(js "replicas", replicas this);
             (js "selector",
               VObj [(js "matchLabels", VObj [(js "app", VStr name)])]);
             (js "template",
               VObj [(js "metadata",
                       VObj [(js "labels",
                               VObj (spread [(js "app", VStr name)]
                                            (Resource.labels (base this))))]);
                     (js "spec",
                       VObj [(js "containers", VArr [VObj container])])])])].
End Deployment.

Module StatefulSet.
Record t := {
  base : Resource.t;
  image : value;
  replicas : value;
  port : value;
  storage : value;
  storageClass : value;
  env : value
}.

Definition constructor (name : jsstring) (options : obj) : t :=
  {| base :=
       Resource.constructor (js "StatefulSet") name
         (get options (js "namespace") ||| VStr (js "default"));
     image := get options (js "image");
     replicas := get options (js "replicas") ||| VNum 1;
     port := get options (js "port");
     storage := get options (js "storage") ||| VStr (js "10Gi");
     storageClass := get options (js "storageClass") ||| VStr (js "standard");
     env := get options (js "env") ||| VObj [] |}.

Definition toYAML (this : t) : value :=
  let name := Resource.name (base this) in
  let container :=
    [(js "name", VStr name);
     (js "image", image this);
     (js "volumeMounts",
       VArr [VObj [(js "name", VStr (name ++ js "-storage"));
                   (js "mountPath", VStr (js "/var/lib/data"))]])]
    ++ container_ports (port this)
    ++ container_env (env this) in
  VObj
    [(js "apiVersion", VStr (js "apps/v1"));
     (js "kind", VStr (js "StatefulSet"));
     (js "metadata",
       VObj [(js "name", VStr name);
             (js "namespace", Resource.namespace (base this));
             (js "labels", VObj (Resource.labels (base this)))]);
     (js "spec",
       VObj [(js "serviceName", VStr name);
             (js "replicas", replicas this);
             (js "selector",
               VObj [(js "matchLabels", VObj [(js "app", VStr name)])]);
             (js "template",
               VObj [(js "metadata",
                       VObj [(js "labels", VObj [(js "app", VStr name)])]);
                     (js "spec",
                       VObj [(js "containers", VArr [VObj container])])]);
             (js "volumeClaimTemplates",
               VArr [VObj [(js "metadata",
                             VObj [(js "name", VStr (name ++ js "-storage"))]);
                           (js "spec",
                             VObj [(js "accessModes",
                                     VArr [VStr (js "ReadWriteOnce")]);
                                   (js "storageClassName", storageClass this);
                                   (js "resources",
                                     VObj [(js "requests",
                                             VObj [(js "storage",
                                                     storage this)])])])]])])].
End StatefulSet.

(** ** Buffers: UTF-8 and base64 *)

(** Node's [Buffer.from(string)] writes the UTF-8 encoding of the string;
    a surrogate code unit that is not part of a pair is written as the
    replacement character U+FFFD.  [buf.toString('base64')] is the
    standard alphabet with [=] padding.  Bytes are integers below 256;
    the shifts and masks of the encoders are written as divisions and
    remainders by powers of two. *)
Module Buffer.
Definition is_high_surrogate (c : Z) : bool := (0xD800 <=? c) && (c <=? 0xDBFF).
Definition is_low_surrogate (c : Z) : bool := (0xDC00 <=? c) && (c <=? 0xDFFF).

Definition replacement : list Z := [0xEF; 0xBF; 0xBD].

Definition utf8_of_code_point (cp : Z) : list Z :=
  if cp <? 0x80 then [cp]
  else if cp <? 0x800 then [0xC0 + cp / 64; 0x80 + cp mod 64]
  else if cp <? 0x10000 then
    [0xE0 + cp / 4096; 0x80 + (cp / 64) mod 64; 0x80 + cp mod 64]
  else
    [0xF0 + cp / 262144; 0x80 + (cp / 4096) mod 64;
     0x80 + (cp / 64) mod 64; 0x80 + cp mod 64].

Definition code_point_of_pair (hi lo : Z) : Z :=
  0x10000 + (hi - 0xD800) * 1024 + (lo - 0xDC00).

(** [Buffer.from(s)], i.e. [Buffer.from(s, 'utf8')] *)
Fixpoint from (s : jsstring) : list Z :=
  match s with
  | [] => []
  | c :: rest =>
      if is_high_surrogate c then
        match rest with
        | d :: rest' =>
            if is_low_surrogate d
            then utf8_of_code_point (code_point_of_pair c d) ++ from rest'
            else replacement ++ from rest
        | [] => replacement
        end
      else if is_low_surrogate c then replacement ++ from rest
      else utf8_of_code_point c ++ from rest
  end.

(** The base64 alphabet [A-Z a-z 0-9 + /]. *)
Definition base64_char (i : Z) : Z :=
  if i <? 26 then 65 + i
  else if i <? 52 then 97 + (i - 26)
  else if i <? 62 then 48 + (i - 52)
  else if i =? 62 then 43
  else 47.

Definition pad : Z := 61.

(** [buf.toString('base64')] *)
Fixpoint toString_base64 (bytes : list Z) : jsstring :=
  match bytes with
  | [] => []
  | [a] => [base64_char (a / 4); base64_char (a mod 4 * 16); pad; pad]
  | [a; b] =>
      [base64_char (a / 4); base64_char (a mod 4 * 16 + b / 16);
       base64_char (b mod 16 * 4); pad]
  | a :: b :: c :: rest =>
      [base64_char (a / 4); base64_char (a mod 4 * 16 + b / 16);
       base64_char (b mod 16 * 4 + c / 64); base64_char (c mod 64)]
      ++ toString_base64 rest
  end.

(** The readers used to state the round trip: [Buffer.from(s, 'base64')]
    on a padded base64 string, and the reading of UTF-8 bytes as a
    string. *)
Definition base64_index (c : Z) : option Z :=
  if (65 <=? c) && (c <=? 90) then Some (c - 65)
  else if (97 <=? c) && (c <=? 122) then Some (c - 97 + 26)
  else if (48 <=? c) && (c <=? 57) then Some (c - 48 + 52)
  else if c =? 43 then Some 62
  else if c =? 47 then Some 63
  else None.

Fixpoint from_base64 (s : jsstring) : option (list Z) :=
  match s with
  | [] => Some []
  | c0 :: c1 :: c2 :: c3 :: rest =>
      match base64_index c0, base64_index c1 with
      | Some i0, Some i1 =>
          let a := i0 * 4 + i1 / 16 in
          if c2 =? pad then
            if (c3 =? pad) && match rest with [] => true | _ => false end
            then Some [a] else None
          else
            match base64_index c2 with
            | Some i2 =>
                let b := i1 mod 16 * 16 + i2 / 4 in
                if c3 =? pad then
                  match rest with [] => Some [a; b] | _ => None end
                else
                  match base64_index c3, from_base64 rest with
                  | Some i3, Some bytes =>
                      Some (a :: b :: (i2 mod 4 * 64 + i3) :: bytes)
                  | _, _ => None
                  end
            | None => None
            end
      | _, _ => None
      end
  | _ => None
  end.

Definition is_continuation (b : Z) : bool := (0x80 <=? b) && (b <? 0xC0).

Definition utf16_of_code_point (cp : Z) : jsstring :=
  if cp <? 0x10000 then [cp]
  else [0xD800 + (cp - 0x10000) / 1024; 0xDC00 + (cp - 0x10000) mod 1024].

(** [buf.toString('utf8')] on sequences of one to four bytes; [None] on
    a byte that can neither start nor continue a sequence. *)
Fixpoint toString_utf8 (bytes : list Z) : option jsstring :=
  match bytes with
  | [] => Some []
  | b0 :: rest =>
      if (0 <=? b0) && (b0 <? 0x80) then
        option_map (cons b0) (toString_utf8 rest)
      else if (0xC0 <=? b0) && (b0 <? 0xE0) then
        match rest with
        | b1 :: rest1 =>
            if is_continuation b1 then
              option_map
                (app (utf16_of_code_point ((b0 - 0xC0) * 64 + (b1 - 0x80))))
                (toString_utf8 rest1)
            else None
        | _ => None
        end
      else if (0xE0 <=? b0) && (b0 <? 0xF0) then
        match rest with
        | b1 :: b2 :: rest2 =>
            if is_continuation b1 && is_continuation b2 then
              option_map
                (app (utf16_of_code_point
                        ((b0 - 0xE0) * 4096 + (b1 - 0x80) * 64 + (b2 - 0x80))))
                (toString_utf8 rest2)
            else None
        | _ => None
        end
      else if (0xF0 <=? b0) && (b0 <? 0xF8) then
        match rest with
        | b1 :: b2 :: b3 :: rest3 =>
            if is_continuation b1 && is_continuation b2 && is_continuation b3 then
              option_map
                (app (utf16_of_code_point
                        ((b0 - 0xF0) * 262144 + (b1 - 0x80) * 4096
                         + (b2 - 0x80) * 64 + (b3 - 0x80))))
                (toString_utf8 rest3)
            else None
        | _ => None
        end
      else None
  end.

(** A string without unpaired surrogates, all units below 2^16. *)
Fixpoint well_formed (s : jsstring) : bool :=
  match s with
  | [] => true
  | c :: rest =>
      if is_high_surrogate c then
        match rest with
        | d :: rest' => is_low_surrogate d && well_formed rest'
        | [] => false
        end
      else if is_low_surrogate c then false
      else (0 <=? c) && (c <? 0x10000) && well_formed rest
  end.
End Buffer.

(** Bytes are the integers below 256. *)
Definition byte (b : Z) : Prop := 0 <= b < 256.

(** The objects that carry [name], [port] and [namespace] and are handed
    to [Service], [HorizontalPodAutoscaler], [serviceFor] and
    [autoscaleFor]. *)
Inductive workload : Type :=
| WDeployment (d : Deployment.t)
| WStatefulSet (s : StatefulSet.t).

Definition workload_base (w : workload) : Resource.t :=
  match w with
  | WDeployment d => Deployment.base d
  | WStatefulSet s => StatefulSet.base s
  end.

Definition workload_name (w : workload) : jsstring := Resource.name (workload_base w).

Definition workload_namespace (w : workload) : value :=
  Resource.namespace (workload_base w).

Definition workload_port (w : workload) : value :=
  match w with
  | WDeployment d => Deployment.port d
  | WStatefulSet s => StatefulSet.port s
  end.

(** The [target] argument: a name, or the workload object itself. *)
Inductive target_value : Type :=
| TString (s : jsstring)
| TWorkload (w : workload).

(** [typeof target === 'string' ? target : target.name] *)
Definition target_name (t : target_value) : jsstring :=
  match t with
  | TString s => s
  | TWorkload w => workload_name w
  end.

(** [target.port]: a string has no such property. *)
Definition target_port (t : target_value) : value :=
  match t with
  | TString _ => VUndefined
  | TWorkload w => workload_port w
  end.

Module Service.
Record t := {
  base : Resource.t;
  target : jsstring;
  port : value;
  targetPort : value;
  type : value
}.

Definition constructor (name : jsstring) (tgt : target_value) (options : obj) : t :=
  let port := get options (js "port") ||| VNum 80 in
  {| base :=
       Resource.constructor (js "Service") name
         (get options (js "namespace") ||| VStr (js "default"));
     target := target_name tgt;
     port := port;
     targetPort := get options (js "targetPort") ||| (target_port tgt ||| port);
     type := get options (js "type") ||| VStr (js "ClusterIP") |}.

Definition toYAML (this : t) : value :=
  VObj
    [(js "apiVersion", VStr (js "v1"));
     (js "kind", VStr (js "Service"));
     (js "metadata",
       VObj [(js "name", VStr (Resource.name (base this)));
             (js "namespace", Resource.namespace (base this));
             (js "labels", VObj (Resource.labels (base this)));
             (js "annotations", VObj (Resource.annotations (base this)))]);
     (js "spec",
       VObj [(js "selector", VObj [(js "app", VStr (target this))]);
             (js "ports",
               VArr [VObj [(js "port", port this);
                           (js "targetPort", targetPort this);
                           (js "protocol", VStr (js "TCP"))]]);
             (js "type", type this)])].
End Service.

Module ConfigMap.
Record t := {
  base : Resource.t;
  data : value
}.

Definition constructor (name : jsstring) (data : value) (options : obj) : t :=
  {| base :=
       Resource.constructor (js "ConfigMap") name
         (get options (js "namespace") ||| VStr (js "default"));
     data := data |}.

Definition toYAML (this : t) : value :=
  VObj
    [(js "apiVersion", VStr (js "v1"));
     (js "kind", VStr (js "ConfigMap"));
     (js "metadata",
       VObj [(js "name", VStr (Resource.name (base this)));
             (js "namespace", Resource.namespace (base this));
             (js "labels", VObj (Resource.labels (base this)))]);
     (js "data", data this)].
End ConfigMap.

(** The [data] of a secret is an object, as the data model has it
    ([Object.entries] would throw on [undefined] or [null]). *)
Module Secret.
Record t := {
  base : Resource.t;
  data : obj;
  type : value
}.

Definition constructor (name : jsstring) (data : obj) (options : obj) : t :=
  {| base :=
       Resource.constructor (js "Secret") name
         (get options (js "namespace") ||| VStr (js "default"));
     data := data;
     type := get options (js "type") ||| VStr (js "Opaque") |}.

(** [Buffer.from(String(value)).toString('base64')] *)
Definition encode (v : value) : value :=
  VStr (Buffer.toString_base64 (Buffer.from (ToString v))).

(** The loop filling [encodedData]. *)
Definition encodedData (data : obj) : obj :=
  fold_left (fun acc kv => assign acc (fst kv) (encode (snd kv))) data [].

Definition toYAML (this : t) : value :=
  VObj
    [(js "apiVersion", VStr (js "v1"));
     (js "kind", VStr (js "Secret"));
     (js "metadata",
       VObj [(js "name", VStr (Resource.name (base this)));
             (js "namespace", Resource.namespace (base this));
             (js "labels", VObj (Resource.labels (base this)))]);
     (js "type", type this);
     (js "data", VObj (encodedData (data this)))].
End Secret.

Module HorizontalPodAutoscaler.
Record t := {
  base : Resource.t;
  target : jsstring;
  minReplicas : value;
  maxReplicas : value;
  cpuPercent : value
}.

Definition constructor (name : jsstring) (tgt : target_value) (options : obj) : t :=
  {| base :=
       Resource.constructor (js "HorizontalPodAutoscaler") name
         (get options (js "namespace") ||| VStr (js "default"));
     target := target_name tgt;
     minReplicas := get options (js "minReplicas") ||| VNum 1;
     maxReplicas := get options (js "maxReplicas") ||| VNum 10;
     cpuPercent := get options (js "cpuPercent") ||| VNum 80 |}.

Definition toYAML (this : t) : value :=
  VObj
    [(js "apiVersion", VStr (js "autoscaling/v2"));
     (js "kind", VStr (js "HorizontalPodAutoscaler"));
     (js "metadata",
       VObj [(js "name", VStr (Resource.name (base this)));
             (js "namespace", Resource.namespace (base this));
             (js "labels", VObj (Resource.labels (base this)))]);
     (js "spec",
       VObj [(js "scaleTargetRef",
               VObj [(js "apiVersion", VStr (js "apps/v1"));
                     (js "kind", VStr (js "Deployment"));
                     (js "name", VStr (target this))]);
             (js "minReplicas", minReplicas this);
             (js "maxReplicas", maxReplicas this);
             (js "metrics",
               VArr [VObj [(js "type", VStr (js "Resource"));
                           (js "resource",
                             VObj [(js "name", VStr (js "cpu"));
                                   (js "target",
                                     VObj [(js "type", VStr (js "Utilization"));
                                           (js "averageUtilization",
                                             cpuPercent this)])])]])])].
End HorizontalPodAutoscaler.

(** Any of the six resource kinds, as [deploy] receives them. *)
Inductive resource : Type :=
| RDeployment (d : Deployment.t)
| RService (s : Service.t)
| RStatefulSet (s : StatefulSet.t)
| RConfigMap (c : ConfigMap.t)
| RSecret (s : Secret.t)
| RHorizontalPodAutoscaler (h : HorizontalPodAutoscaler.t).

Definition resource_base (r : resource) : Resource.t :=
  match r with
  | RDeployment d => Deployment.base d
  | RService s => Service.base s
  | RStatefulSet s => StatefulSet.base s
  | RConfigMap c => ConfigMap.base c
  | RSecret s => Secret.base s
  | RHorizontalPodAutoscaler h => HorizontalPodAutoscaler.base h
  end.

(** [resource.toYAML()], dispatched on the class. *)
Definition toYAML (r : resource) : value :=
  match r with
  | RDeployment d => Deployment.toYAML d
  | RService s => Service.toYAML s
  | RStatefulSet s => StatefulSet.toYAML s
  | RConfigMap c => ConfigMap.toYAML c
  | RSecret s => Secret.toYAML s
  | RHorizontalPodAutoscaler h => HorizontalPodAutoscaler.toYAML h
  end.

(** ** Utility functions *)

Definition serviceFor (deployment : workload) (options : obj) : Service.t :=
  Service.constructor
    (workload_name deployment ++ js "-service")
    (TWorkload deployment)
    (spread
       [(js "port",
          get options (js "port") ||| workload_port deployment ||| VNum 80);
        (js "type", get options (js "type") ||| VStr (js "ClusterIP"));
        (js "namespace", workload_namespace deployment)]
       options).

Definition autoscaleFor (deployment : workload) (options : obj)
  : HorizontalPodAutoscaler.t :=
  HorizontalPodAutoscaler.constructor
    (workload_name deployment ++ js "-hpa")
    (TWorkload deployment)
    (spread
       [(js "minReplicas", get options (js "minReplicas") ||| VNum 1);
        (js "maxReplicas", get options (js "maxReplicas") ||| VNum 10);
        (js "cpuPercent", get options (js "cpuPercent") ||| VNum 80);
        (js "namespace", workload_namespace deployment)]
       options).

(** ** Smart deployment patterns *)

Section Patterns.
(** The [*] of the host language, which coerces its operands to
    numbers; only [replicas * 3] uses it. *)
Variable times : value -> value -> value.

Definition webApp (name : jsstring) (image : value) (options : obj)
  : list resource :=
  let replicas := get options (js "replicas") ||| VNum 3 in
  let port := get options (js "port") ||| VNum 80 in
  let autoScale :=
    match get options (js "autoScale") with
    | VBool false => false
    | _ => true
    end in
  let app :=
    Deployment.constructor name
      [(js "image", image);
       (js "replicas", replicas);
       (js "port", port);
       (js "env", get options (js "env"));
       (js "namespace", get options (js "namespace"))] in
  let service :=
    serviceFor (WDeployment app) [(js "type", VStr (js "LoadBalancer"))] in
  let resources := [RDeployment app; RService service] in
  if autoScale then
    resources ++
    [RHorizontalPodAutoscaler
       (autoscaleFor (WDeployment app)
          [(js "minReplicas", replicas);
           (js "maxReplicas", times replicas (VNum 3))])]
  else resources.
End Patterns.

Definition database (name : jsstring) (image : value) (options : obj)
  : list resource :=
  let db :=
    StatefulSet.constructor name
      [(js "image", image);
       (js "storage", get options (js "storage") ||| VStr (js "10Gi"));
       (js "env", get options (js "env"));
       (js "port", get options (js "port"));
       (js "namespace", get options (js "namespace"))] in
  let service := serviceFor (WStatefulSet db) [] in
  [RStatefulSet db; RService service].

(** Factory functions. *)
Definition deployment := Deployment.constructor.
Definition service := Service.constructor.
Definition statefulSet := StatefulSet.constructor.
Definition configMap := ConfigMap.constructor.
Definition secret := Secret.constructor.
Definition hpa := HorizontalPodAutoscaler.constructor.

(** ** Effects *)

Record error := { message : jsstring }.

Inductive outcome (A : Type) : Type :=
| Return (a : A)
| Throw (e : error).
Arguments Return {A} a.
Arguments Throw {A} e.

(** Lines written by [console.log]. *)
Inductive line : Type :=
| Deploying (count : nat)              (* Deploying <count> resources... *)
| Announce (kind name : jsstring)      (* <kind>: <name> *)
| DryRunHeader                         (* Dry run - YAML would be: *)
| Text (s : jsstring)                  (* the separator, a dumped document *)
| Successful                           (* Deployment successful! *)
| JsYamlRequired                       (* js-yaml required: npm install js-yaml *)
| KubectlNotFound                      (* kubectl not found. ... *)
| DeploymentError (msg : jsstring).    (* Deployment error: <msg> *)

Inductive event : Type :=
| Console (l : line)
| WriteFile (path data : jsstring)
| Unlink (path : jsstring)
| Exec (command : jsstring).

Definition filesystem := list (jsstring * jsstring).

Record world := {
  files : filesystem;
  trace : list event
}.

Fixpoint lookup (fs : filesystem) (path : jsstring) : option jsstring :=
  match fs with
  | [] => None
  | (p, d) :: fs' => if jsstring_eqb p path then Some d else lookup fs' path
  end.

Definition remove (fs : filesystem) (path : jsstring) : filesystem :=
  filter (fun pd => negb (jsstring_eqb (fst pd) path)) fs.

(** What the program obtains from its host: the [js-yaml] module (its
    [dump], or the error of [require]), the temporary directory, the
    clock, [path.join], the result of running a command against the
    current files, and whether the file system refuses a request:
    [refuse_write path data files] is [None] when the write is
    performed, and the error thrown together with the files left behind
    when it is not (no such directory, no permission, no space left);
    [refuse_unlink path files] is [None] when the removal of an existing
    file is performed, and the error thrown when it is not. *)
Record platform := {
  require_js_yaml : outcome (value -> outcome jsstring);
  os_tmpdir : jsstring;
  Date_now : Z;
  path_join : jsstring -> jsstring -> jsstring;
  run : jsstring -> filesystem -> outcome unit;
  refuse_write : jsstring -> jsstring -> filesystem -> option (error * filesystem);
  refuse_unlink : jsstring -> filesystem -> option error
}.

(** Computations: a world in, a result or an exception and a world out. *)
Definition M (A : Type) : Type := world -> outcome A * world.

Definition ret {A} (a : A) : M A := fun w => (Return a, w).

Definition throw {A} (e : error) : M A := fun w => (Throw e, w).

Definition bind {A B} (m : M A) (k : A -> M B) : M B :=
  fun w =>
    match m w with
    | (Return a, w') => k a w'
    | (Throw e, w') => (Throw e, w')
    end.

Notation "x <- m ;; k" := (bind m (fun x => k))
  (at level 61, m at next level, right associativity).
Notation "m ;;; k" := (bind m (fun _ => k))
  (at level 61, right associativity).

Definition lift {A} (r : outcome A) : M A := fun w => (r, w).

(** [try { body } catch (error) { handler }] *)
Definition try_catch {A} (body : M A) (handler : error -> M A) : M A :=
  fun w =>
    match body w with
    | (Return a, w') => (Return a, w')
    | (Throw e, w') => handler e w'
    end.

(** [try { body } finally { cleanup }]: an exception of [cleanup]
    replaces the completion of [body]. *)
Definition try_finally {A} (body : M A) (cleanup : M unit) : M A :=
  fun w =>
    match body w with
    | (r, w') =>
        match cleanup w' with
        | (Return _, w'') => (r, w'')
        | (Throw e, w'') => (Throw e, w'')
        end
    end.

Definition emit (e : event) (w : world) : world :=
  {| files := files w; trace := trace w ++ [e] |}.

Definition console_log (l : line) : M unit :=
  fun w => (Return tt, emit (Console l) w).

(** The events [WriteFile], [Unlink] and [Exec] record the calls, whether
    or not they succeed. *)
Definition writeFileSync (p : platform) (path data : jsstring) : M unit :=
  fun w =>
    match refuse_write p path data (files w) with
    | None =>
        (Return tt,
         {| files := (path, data) :: remove (files w) path;
            trace := trace w ++ [WriteFile path data] |})
    | Some (e, remaining) =>
        (Throw e,
         {| files := remaining; trace := trace w ++ [WriteFile path data] |})
    end.

Definition unlinkSync (p : platform) (path : jsstring) : M unit :=
  fun w =>
    match lookup (files w) path with
    | Some _ =>
        match refuse_unlink p path (files w) with
        | None =>
            (Return tt,
             {| files := remove (files w) path; trace := trace w ++ [Unlink path] |})
        | Some e =>
            (Throw e, {| files := files w; trace := trace w ++ [Unlink path] |})
        end
    | None =>
        (Throw {| message := js "ENOENT: no such file or directory, unlink" |},
         {| files := files w; trace := trace w ++ [Unlink path] |})
    end.

Definition execSync (p : platform) (command : jsstring) : M unit :=
  fun w => (run p command (files w), emit (Exec command) w).

(** ** Submission *)

(** An argument of the variadic [deploy]: a resource, or any other value
    (the trailing options object). *)
Inductive argument : Type :=
| AResource (r : resource)
| AValue (v : value).

(** [typeof a === 'object'] *)
Definition typeof_object (a : argument) : bool :=
  match a with
  | AResource _ => true
  | AValue (VNull | VArr _ | VObj _) => true
  | AValue _ => false
  end.

Definition argument_truthy (a : argument) : bool :=
  match a with
  | AResource _ => true
  | AValue v => truthy v
  end.

Definition TypeError (msg : string) : error := {| message := js msg |}.

(** [a.k] for [k] one of [dryRun] and [apply], which no resource class
    and no primitive or array defines. *)
Definition member (a : argument) (k : jsstring) : outcome value :=
  match a with
  | AResource _ => Return VUndefined
  | AValue (VUndefined | VNull) =>
      Throw (TypeError "Cannot read properties of undefined or null")
  | AValue (VObj o) => Return (get o k)
  | AValue _ => Return VUndefined
  end.

(** [a && a.k] *)
Definition and_member (a : argument) (k : jsstring) : outcome value :=
  match a with
  | AValue v => if truthy v then member a k else Return v
  | AResource _ => member a k
  end.

Definition is_undefined (v : value) : bool :=
  match v with VUndefined => true | _ => false end.

Definition is_false (v : value) : bool :=
  match v with VBool false => true | _ => false end.

(** [resource.toYAML()]: only a resource has the method. *)
Definition call_toYAML (a : argument) : outcome value :=
  match a with
  | AResource r => Return (toYAML r)
  | AValue _ => Throw (TypeError "resource.toYAML is not a function")
  end.

Definition announce (a : argument) : line :=
  match a with
  | AResource r =>
      Announce (Resource.kind (resource_base r)) (Resource.name (resource_base r))
  | AValue _ => Announce (js "undefined") (js "undefined")
  end.

(** The first loop: serialize and announce every resource. *)
Fixpoint collect (rs : list argument) (allYAML : list value) : M (list value) :=
  match rs with
  | [] => ret allYAML
  | resource :: rest =>
      yamlContent <- lift (call_toYAML resource) ;;
      console_log (announce resource) ;;;
      collect rest (allYAML ++ [yamlContent])
  end.

(** The dry-run loop. *)
Fixpoint print_documents (dump : value -> outcome jsstring)
    (allYAML : list value) : M unit :=
  match allYAML with
  | [] => ret tt
  | yamlContent :: rest =>
      console_log (Text (js "---")) ;;;
      s <- lift (dump yamlContent) ;;
      console_log (Text s) ;;;
      print_documents dump rest
  end.

(** The loop building [yamlString], [i] being the index of the head of
    [allYAML]. *)
Fixpoint concatenate (dump : value -> outcome jsstring)
    (allYAML : list value) (i : Z) (yamlString : jsstring) : M jsstring :=
  match allYAML with
  | [] => ret yamlString
  | yamlContent :: rest =>
      let yamlString :=
        if 0 <? i then yamlString ++ js "---" ++ [10] else yamlString in
      s <- lift (dump yamlContent) ;;
      concatenate dump rest (i + 1) (yamlString ++ s)
  end.

Definition tempFile (p : platform) : jsstring :=
  path_join p (os_tmpdir p)
    (js "mini-kuber-" ++ Number_toString (Date_now p) ++ js ".yaml").

Definition command (p : platform) : jsstring := js "kubectl apply -f " ++ tempFile p.

(** The message chosen by the [catch] clause. *)
Definition diagnosis (error : error) : line :=
  if includes (message error) (js "js-yaml") then JsYamlRequired
  else if includes (message error) (js "kubectl") then KubectlNotFound
  else DeploymentError (message error).

Definition report (error : error) : M bool :=
  console_log (diagnosis error) ;;;
  ret false.

Definition outcome_bind {A B} (r : outcome A) (k : A -> outcome B) : outcome B :=
  match r with
  | Return a => k a
  | Throw e => Throw e
  end.

(** The first three statements of [deploy]: the resources proper, and
    the constants [dryRun] and [apply] ([apply] only through its truth
    value). *)
Definition arguments (resources : list argument)
  : outcome (list argument * value * bool) :=
  let options := last resources (AValue VUndefined) in
  outcome_bind
    (if typeof_object options
     then outcome_bind (member options (js "dryRun"))
            (fun d => Return (negb (is_undefined d)))
     else Return false)
    (fun trailing =>
       let actualResources :=
         if trailing then removelast resources else resources in
       outcome_bind (and_member options (js "dryRun"))
         (fun dryRun =>
            outcome_bind
              (if argument_truthy options
               then outcome_bind (member options (js "apply"))
                      (fun a => Return (negb (is_false a)))
               else Return false)
              (fun apply => Return (actualResources, dryRun, apply)))).

Definition deploy (p : platform) (resources : list argument) : M bool :=
  parsed <- lift (arguments resources) ;;
  let '(actualResources, dryRun, apply) := parsed in
  console_log (Deploying (List.length actualResources)) ;;;
  allYAML <- collect actualResources [] ;;
  if truthy dryRun then
    console_log DryRunHeader ;;;
    dump <- lift (require_js_yaml p) ;;
    print_documents dump allYAML ;;;
    ret true
  else if negb apply then ret true
  else
    try_catch
      (dump <- lift (require_js_yaml p) ;;
       yamlString <- concatenate dump allYAML 0 [] ;;
       writeFileSync p (tempFile p) yamlString ;;;
       try_finally
         (execSync p (command p) ;;;
          console_log Successful ;;;
          ret true)
         (unlinkSync p (tempFile p)))
      report.

(** ** The document stream *)

(** The stream the specification describes: the documents in the order
    given, each two separated by the line [---] (the characters 45, 45,
    45 and the line feed 10).  It is written down here on its own, to be
    compared with what the loop of [deploy] builds. *)
Fixpoint documents (texts : list jsstring) : jsstring :=
  match texts with
  | [] => []
  | [t] => t
  | t :: ts => t ++ [45; 45; 45; 10] ++ documents ts
  end.

(** Every document dumped, in order; the first failure if there is one. *)
Fixpoint dump_all (dump : value -> outcome jsstring) (docs : list value)
  : outcome (list jsstring) :=
  match docs with
  | [] => Return []
  | d :: ds =>
      outcome_bind (dump d)
        (fun t => outcome_bind (dump_all dump ds) (fun ts => Return (t :: ts)))
  end.

(** The calls of [writeFileSync] and of [execSync] along a trace. *)
Fixpoint writes (tr : list event) : list (jsstring * jsstring) :=
  match tr with
  | [] => []
  | WriteFile path data :: tr' => (path, data) :: writes tr'
  | _ :: tr' => writes tr'
  end.

Fixpoint commands (tr : list event) : list jsstring :=
  match tr with
  | [] => []
  | Exec c :: tr' => c :: commands tr'
  | _ :: tr' => commands tr'
  end.

(** The announcement of a resource by the first loop. *)
Definition announcement (r : resource) : line := announce (AResource r).

(** [v.k] on a value of any type. *)
Definition field_of (v : value) (k : jsstring) : value :=
  match v with
  | VObj o => get o k
  | _ => VUndefined
  end.

(** ** Reading a secret back *)

(** Decoding one serialized value: base64 to bytes, bytes to a string. *)
Definition decode (v : value) : option value :=
  match v with
  | VStr s =>
      match Buffer.from_base64 s with
      | Some bytes => option_map VStr (Buffer.toString_utf8 bytes)
      | None => None
      end
  | _ => None
  end.

Fixpoint decode_all (o : obj) : option obj :=
  match o with
  | [] => Some []
  | (k, v) :: o' =>
      match decode v, decode_all o' with
      | Some v', Some o'' => Some ((k, v') :: o'')
      | _, _ => None
      end
  end.

(** A string-to-string mapping: distinct keys, none of them
    [__proto__], every value a string without unpaired surrogates. *)
Fixpoint distinct_keys (o : obj) : bool :=
  match o with
  | [] => true
  | (k, _) :: o' => negb (has o' k) && distinct_keys o'
  end.

Definition string_values (o : obj) : bool :=
  forallb (fun kv => match snd kv with
                     | VStr s => Buffer.well_formed s
                     | _ => false
                     end) o.

Definition string_mapping (o : obj) : bool :=
  distinct_keys o && negb (has o (js "__proto__")) && string_values o.

(** ** Sample host *)

(** A host on which everything works, with a toy [dump] that prints the
    kind and the name of a document on one line. *)
Definition sample_dump (doc : value) : outcome jsstring :=
  Return (ToString (field_of doc (js "kind")) ++ js " "
          ++ ToString (field_of (field_of doc (js "metadata")) (js "name")) ++ [10]).

Definition sample_platform : platform :=
  {| require_js_yaml := Return sample_dump;
     os_tmpdir := js "/tmp";
     Date_now := 1700000000000;
     path_join := fun dir file => dir ++ js "/" ++ file;
     run := fun _ _ => Return tt;
     refuse_write := fun _ _ _ => None;
     refuse_unlink := fun _ _ => None |}.

(** The same host with a cluster that rejects every command. *)
Definition failing_platform : platform :=
  {| require_js_yaml := Return sample_dump;
     os_tmpdir := js "/tmp";
     Date_now := 1700000000000;
     path_join := fun dir file => dir ++ js "/" ++ file;
     run := fun command _ =>
              Throw {| message := js "Command failed: " ++ command |};
     refuse_write := fun _ _ _ => None;
     refuse_unlink := fun _ _ => None |}.

(** The same host without the [js-yaml] module installed. *)
Definition bare_platform : platform :=
  {| require_js_yaml := Throw {| message := js "Cannot find module 'js-yaml'" |};
     os_tmpdir := js "/tmp";
     Date_now := 1700000000000;
     path_join := fun dir file => dir ++ js "/" ++ file;
     run := fun _ _ => Return tt;
     refuse_write := fun _ _ _ => None;
     refuse_unlink := fun _ _ => None |}.

(** The sample host with a temporary directory that does not exist. *)
Definition unwritable_platform : platform :=
  {| require_js_yaml := Return sample_dump;
     os_tmpdir := js "/tmp";
     Date_now := 1700000000000;
     path_join := fun dir file => dir ++ js "/" ++ file;
     run := fun _ _ => Return tt;
     refuse_write := fun _ _ files =>
       Some ({| message := js "ENOENT: no such file or directory, open" |}, files);
     refuse_unlink := fun _ _ => None |}.

Definition empty_world : world := {| files := []; trace := [] |}.

Definition sample_resources : list resource :=
  [RStatefulSet (StatefulSet.constructor (js "db") [(js "image", VStr (js "postgres:13"))]);
   RService (serviceFor (WStatefulSet
               (StatefulSet.constructor (js "db") [(js "image", VStr (js "postgres:13"))])) []);
   RDeployment (Deployment.constructor (js "api") [(js "port", VNum 8080)])].

(** ** Reading documents *)

(** [v.k] and [v[i]] on a serialized document. *)
Definition field (v : value) (k : string) : value := field_of v (js k).

Definition item (v : value) (i : nat) : value :=
  match v with
  | VArr xs => nth i xs VUndefined
  | _ => VUndefined
  end.

Definition path (v : value) (ks : list string) : value := fold_left field ks v.

(** ** Defaults *)

(** For each builder, the options that are replaced by a default when
    omitted: option name, field, default. *)
Definition Deployment_defaults : list (string * (Deployment.t -> value) * value) :=
  [("namespace", fun d => Resource.namespace (Deployment.base d), VStr (js "default"));
   ("image", Deployment.image, VStr (js "nginx:latest"));
   ("replicas", Deployment.replicas, VNum 1);
   ("env", Deployment.env, VObj []);
   ("cpuRequest", Deployment.cpuRequest, VStr (js "100m"));
   ("memoryRequest", Deployment.memoryRequest, VStr (js "128Mi"));
   ("cpuLimit", Deployment.cpuLimit, VStr (js "500m"));
   ("memoryLimit", Deployment.memoryLimit, VStr (js "512Mi"))]%string.

Definition StatefulSet_defaults : list (string * (StatefulSet.t -> value) * value) :=
  [("namespace", fun s => Resource.namespace (StatefulSet.base s), VStr (js "default"));
   ("replicas", StatefulSet.replicas, VNum 1);
   ("storage", StatefulSet.storage, VStr (js "10Gi"));
   ("storageClass", StatefulSet.storageClass, VStr (js "standard"));
   ("env", StatefulSet.env, VObj [])]%string.

Definition Service_defaults : list (string * (Service.t -> value) * value) :=
  [("namespace", fun s => Resource.namespace (Service.base s), VStr (js "default"));
   ("port", Service.port, VNum 80);
   ("type", Service.type, VStr (js "ClusterIP"))]%string.

Definition HorizontalPodAutoscaler_defaults
  : list (string * (HorizontalPodAutoscaler.t -> value) * value) :=
  [("namespace", fun h => Resource.namespace (HorizontalPodAutoscaler.base h),
    VStr (js "default"));
   ("minReplicas", HorizontalPodAutoscaler.minReplicas, VNum 1);
   ("maxReplicas", HorizontalPodAutoscaler.maxReplicas, VNum 10);
   ("cpuPercent", HorizontalPodAutoscaler.cpuPercent, VNum 80)]%string.

Definition Secret_defaults : list (string * (Secret.t -> value) * value) :=
  [("namespace", fun s => Resource.namespace (Secret.base s), VStr (js "default"));
   ("type", Secret.type, VStr (js "Opaque"))]%string.

Definition ConfigMap_defaults : list (string * (ConfigMap.t -> value) * value) :=
  [("namespace", fun c => Resource.namespace (ConfigMap.base c), VStr (js "default"))]%string.

(** A builder [build] honours a table of defaults when every listed
    field takes its default as soon as the option is omitted. *)
Definition defaulted {T} (build : obj -> T)
    (table : list (string * (T -> value) * value)) : Prop :=
  forall options k f d,
    In (k, f, d) table ->
    get options (js k) = VUndefined ->
    f (build options) = d.

(** A field has a default when it is defined although its option is
    omitted. *)
Definition has_default {T} (build : obj -> T) (k : string) (f : T -> value) : Prop :=
  forall options, get options (js k) = VUndefined -> f (build options) <> VUndefined.

(** ** The microservices example *)

(** [class MicroserviceArchitecture]: a namespace and three growing
    lists.  The module imports [Deployment], [Service], [ConfigMap],
    [Secret], [deploy] and [serviceFor] from [mini-kuber.js]. *)
Module MicroserviceArchitecture.
Record t := {
  namespace : value;
  services : list resource;
  configs : list resource;
  secrets : list resource
}.

(** [constructor(namespace = 'microservices')] *)
Definition constructor (namespace : value) : t :=
  {| namespace :=
       match namespace with
       | VUndefined => VStr (js "microservices")
       | _ => namespace
       end;
     services := [];
     configs := [];
     secrets := [] |}.

(** [this.services.push(...rs)] *)
Definition push_services (this : t) (rs : list resource) : t :=
  {| namespace := namespace this;
     services := services this ++ rs;
     configs := configs this;
     secrets := secrets this |}.

Definition createFrontend (this : t) : t :=
  let frontend :=
    Deployment.constructor (js "frontend")
      [(js "image", VStr (js "nginx:latest"));
       (js "replicas", VNum 2);
       (js "port", VNum 80);
       (js "namespace", namespace this);
       (js "env",
         VObj [(js "API_GATEWAY_URL", VStr (js "http://api-gateway-service:8080"));
               (js "ENVIRONMENT", VStr (js "production"))])] in
  let frontendService :=
    serviceFor (WDeployment frontend)
      [(js "type", VStr (js "LoadBalancer")); (js "port", VNum 80)] in
  push_services this [RDeployment frontend; RService frontendService].

Definition createApiGateway (this : t) : t :=
  let gateway :=
    Deployment.constructor (js "api-gateway")
      [(js "image", VStr (js "nginx:latest"));
       (js "replicas", VNum 3);
       (js "port", VNum 8080);
       (js "namespace", namespace this);
       (js "env",
         VObj [(js "USER_SERVICE_URL", VStr (js "http://user-service:3001"));
               (js "ORDER_SERVICE_URL", VStr (js "http://order-service:3002"));
               (js "PAYMENT_SERVICE_URL", VStr (js "http://payment-service:3003"));
               (js "INVENTORY_SERVICE_URL",
                 VStr (js "http://inventory-service:3004"))])] in
  let gatewayService := serviceFor (WDeployment gateway) [] in
  push_services this [RDeployment gateway; RService gatewayService].

Definition createUserService (this : t) : t :=
  let userService :=
    Deployment.constructor (js "user-service")
      [(js "image", VStr (js "node:16"));
       (js "replicas", VNum 2);
       (js "port", VNum 3001);
       (js "namespace", namespace this);
       (js "env",
         VObj [(js "DATABASE_URL", VStr (js "postgres://user-db-service:5432/users"));
               (js "REDIS_URL", VStr (js "redis://redis-service:6379"));
               (js "JWT_SECRET", VStr (js "user-jwt-secret-key"))])] in
  let service := serviceFor (WDeployment userService) [] in
  push_services this [RDeployment userService; RService service].

Definition createOrderService (this : t) : t :=
  let orderService :=
    Deployment.constructor (js "order-service")
      [(js "image", VStr (js "node:16"));
       (js "replicas", VNum 3);
       (js "port", VNum 3002);
       (js "namespace", namespace this);
       (js "env",
         VObj [(js "DATABASE_URL", VStr (js "postgres://order-db-service:5432/orders"));
               (js "PAYMENT_SERVICE_URL", VStr (js "http://payment-service:3003"));
               (js "INVENTORY_SERVICE_URL", VStr (js "http://inventory-service:3004"));
               (js "RABBITMQ_URL", VStr (js "amqp://rabbitmq-service:5672"))])] in
  let service := serviceFor (WDeployment orderService) [] in
  push_services this [RDeployment orderService; RService service].

Definition createPaymentService (this : t) : t :=
  let paymentService :=
    Deployment.constructor (js "payment-service")
      [(js "image", VStr (js "node:16"));
       (js "replicas", VNum 2);
       (js "port", VNum 3003);
       (js "namespace", namespace this);
       (js "env",
         VObj [(js "DATABASE_URL",
                 VStr (js "postgres://payment-db-service:5432/payments"));
               (js "STRIPE_SECRET_KEY", VStr (js "stripe-secret-key"));
               (js "ENCRYPTION_KEY", VStr (js "payment-encryption-key"))]);
       (js "cpuRequest", VStr (js "200m"));
       (js "memoryRequest", VStr (js "256Mi"));
       (js "cpuLimit", VStr (js "500m"));
       (js "memoryLimit", VStr (js "512Mi"))] in
  let service := serviceFor (WDeployment paymentService) [] in
  push_services this [RDeployment paymentService; RService service].

Definition createInventoryService (this : t) : t :=
  let inventoryService :=
    Deployment.constructor (js "inventory-service")
      [(js "image", VStr (js "node:16"));
       (js "replicas", VNum 2);
       (js "port", VNum 3004);
       (js "namespace", namespace this);
       (js "env",
         VObj [(js "DATABASE_URL",
                 VStr (js "postgres://inventory-db-service:5432/inventory"));
               (js "REDIS_URL", VStr (js "redis://redis-service:6379"))])] in
  let service := serviceFor (WDeployment inventoryService) [] in
  push_services this [RDeployment inventoryService; RService service].

(** The names bound in the module: the six that the [require] at its
    head takes from [mini-kuber.js], and the class and the two functions
    it declares.  The globals of the host come on top; none of them is
    called [StatefulSet]. *)
Definition module_scope : list string :=
  ["Deployment"; "Service"; "ConfigMap"; "Secret"; "deploy"; "serviceFor";
   "MicroserviceArchitecture"; "createEcommerceStack";
   "createSocialMediaStack"]%string.

(** The evaluation of an identifier in a scope: a name that is not bound
    throws a [ReferenceError]. *)
Definition identifier (scope : list string) (x : string) : outcome unit :=
  if existsb (String.eqb x) scope then Return tt
  else Throw {| message := js x ++ js " is not defined" |}.

(** [createDatabases] in a module with the bindings [scope]: its first
    statement evaluates [StatefulSet] before anything is built. *)
Definition createDatabases_in (scope : list string) (this : t) : outcome t :=
  outcome_bind (identifier scope "StatefulSet")
    (fun _ =>
       let userDb :=
         StatefulSet.constructor (js "user-db")
           [(js "image", VStr (js "postgres:13"));
            (js "port", VNum 5432);
            (js "storage", VStr (js "10Gi"));
            (js "namespace", namespace this);
            (js "env",
              VObj [(js "POSTGRES_DB", VStr (js "users"));
                    (js "POSTGRES_USER", VStr (js "user_service"));
                    (js "POSTGRES_PASSWORD", VStr (js "secure_user_password"))])] in
       let orderDb :=
         StatefulSet.constructor (js "order-db")
           [(js "image", VStr (js "postgres:13"));
            (js "port", VNum 5432);
            (js "storage", VStr (js "20Gi"));
            (js "namespace", namespace this);
            (js "env",
              VObj [(js "POSTGRES_DB", VStr (js "orders"));
                    (js "POSTGRES_USER", VStr (js "order_service"));
                    (js "POSTGRES_PASSWORD", VStr (js "secure_order_password"))])] in
       let paymentDb :=
         StatefulSet.constructor (js "payment-db")
           [(js "image", VStr (js "postgres:13"));
            (js "port", VNum 5432);
            (js "storage", VStr (js "15Gi"));
            (js "namespace", namespace this);
            (js "env",
              VObj [(js "POSTGRES_DB", VStr (js "payments"));
                    (js "POSTGRES_USER", VStr (js "payment_service"));
                    (js "POSTGRES_PASSWORD",
                      VStr (js "secure_payment_password"))])] in
       let inventoryDb :=
         StatefulSet.constructor (js "inventory-db")
           [(js "image", VStr (js "postgres:13"));
            (js "port", VNum 5432);
            (js "storage", VStr (js "10Gi"));
            (js "namespace", namespace this);
            (js "env",
              VObj [(js "POSTGRES_DB", VStr (js "inventory"));
                    (js "POSTGRES_USER", VStr (js "inventory_service"));
                    (js "POSTGRES_PASSWORD",
                      VStr (js "secure_inventory_password"))])] in
       let dbServices :=
         [RService (serviceFor (WStatefulSet userDb) []);
          RService (serviceFor (WStatefulSet orderDb) []);
          RService (serviceFor (WStatefulSet paymentDb) []);
          RService (serviceFor (WStatefulSet inventoryDb) [])] in
       Return
         (push_services this
            ([RStatefulSet userDb; RStatefulSet orderDb; RStatefulSet paymentDb;
              RStatefulSet inventoryDb] ++ dbServices))).

Definition createDatabases (this : t) : outcome t :=
  createDatabases_in module_scope this.

Definition createSharedServices (this : t) : t :=
  let redis :=
    Deployment.constructor (js "redis")
      [(js "image", VStr (js "redis:7"));
       (js "port", VNum 6379);
       (js "replicas", VNum 1);
       (js "namespace", namespace this);
       (js "env", VObj [(js "REDIS_PASSWORD", VStr (js "redis_secure_password"))])] in
  let rabbitmq :=
    Deployment.constructor (js "rabbitmq")
      [(js "image", VStr (js "rabbitmq:3-management"));
       (js "port", VNum 5672);
       (js "replicas", VNum 1);
       (js "namespace", namespace this);
       (js "env",
         VObj [(js "RABBITMQ_DEFAULT_USER", VStr (js "admin"));
               (js "RABBITMQ_DEFAULT_PASS", VStr (js "rabbitmq_password"))])] in
  let redisService := serviceFor (WDeployment redis) [] in
  let rabbitmqService := serviceFor (WDeployment rabbitmq) [] in
  let rabbitmqMgmt :=
    Service.constructor (js "rabbitmq-mgmt") (TWorkload (WDeployment rabbitmq))
      [(js "port", VNum 15672); (js "namespace", namespace this)] in
  push_services this
    [RDeployment redis; RDeployment rabbitmq; RService redisService;
     RService rabbitmqService; RService rabbitmqMgmt].

Definition createConfiguration (this : t) : t :=
  let globalConfig :=
    ConfigMap.constructor (js "microservices-config")
      (VObj [(js "service.timeout", VStr (js "30s"));
             (js "log.level", VStr (js "info"));
             (js "metrics.enabled", VStr (js "true"));
             (js "tracing.enabled", VStr (js "true"));
             (js "health.check.interval", VStr (js "10s"))])
      [] in
  let secrets' :=
    Secret.constructor (js "microservices-secrets")
      [(js "jwt_secret", VStr (js "super-secret-jwt-key-for-auth"));
       (js "stripe_secret", VStr (js "sk_test_your_stripe_secret_key"));
       (js "encryption_key", VStr (js "advanced-encryption-key-256-bit"));
       (js "database_master_password",
         VStr (js "ultra-secure-master-db-password"))]
      [] in
  {| namespace := namespace this;
     services := services this;
     configs := configs this ++ [RConfigMap globalConfig];
     secrets := secrets this ++ [RSecret secrets'] |}.

(** [build()]: the nine creators chained on [this]. *)
Definition build (this : t) : outcome t :=
  outcome_bind
    (createDatabases
       (createInventoryService
          (createPaymentService
             (createOrderService
                (createUserService
                   (createApiGateway (createFrontend this)))))))
    (fun this => Return (createConfiguration (createSharedServices this))).

Definition getAllResources (this : t) : list resource :=
  services this ++ configs this ++ secrets this.

Definition resource_name (r : resource) : jsstring := Resource.name (resource_base r).

(** [names.includes(name)] on an array of strings. *)
Definition listed (names : list string) (name : jsstring) : bool :=
  existsb (fun n => jsstring_eqb (js n) name) names.

(** [names.some(n => name.includes(n))] *)
Definition mentions (names : list string) (name : jsstring) : bool :=
  existsb (fun n => includes name (js n)) names.

(** The three filters of [deployWithStaging]. *)
Definition infrastructure (this : t) : list resource :=
  filter (fun service =>
            listed ["user-db"; "order-db"; "payment-db"; "inventory-db";
                    "redis"; "rabbitmq"]%string (resource_name service)
            || includes (resource_name service) (js "-service")
               && negb (includes (resource_name service) (js "user-service")))
         (services this).

Definition coreServices (this : t) : list resource :=
  filter (fun service =>
            listed ["user-service"; "payment-service"; "inventory-service"]%string
                   (resource_name service)
            || includes (resource_name service) (js "-service")
               && mentions ["user"; "payment"; "inventory"]%string
                           (resource_name service))
         (services this).

Definition dependentServices (this : t) : list resource :=
  filter (fun service =>
            listed ["order-service"; "api-gateway"; "frontend"]%string
                   (resource_name service)
            || includes (resource_name service) (js "-service")
               && mentions ["order"; "api-gateway"; "frontend"]%string
                           (resource_name service))
         (services this).
End MicroserviceArchitecture.

(** [new MicroserviceArchitecture('ecommerce').build()] *)
Definition createEcommerceStack : outcome MicroserviceArchitecture.t :=
  MicroserviceArchitecture.build
    (MicroserviceArchitecture.constructor (VStr (js "ecommerce"))).

Definition createSocialMediaStack : MicroserviceArchitecture.t :=
  MicroserviceArchitecture.createConfiguration
    (MicroserviceArchitecture.createUserService
       (MicroserviceArchitecture.createApiGateway
          (MicroserviceArchitecture.createFrontend
             (MicroserviceArchitecture.constructor (VStr (js "social")))))).

(** ** Headers and containers of documents *)

(** [apiVersion], [kind], [metadata.name] and [metadata.namespace] of the
    document of a resource. *)
Definition header (r : resource) : list value :=
  let doc := toYAML r in
  [path doc ["apiVersion"]%string;
   path doc ["kind"]%string;
   path doc ["metadata"; "name"]%string;
   path doc ["metadata"; "namespace"]%string].

(** The one container of the pod template of a workload document. *)
Definition container_of (doc : value) : value :=
  item (path doc ["spec"; "template"; "spec"; "containers"]%string) 0.

(** ** Stages of the microservices example *)

(** The creators of [MicroserviceArchitecture] that add workloads and
    exposures and cannot throw. *)
Definition service_creators
  : list (MicroserviceArchitecture.t -> MicroserviceArchitecture.t) :=
  [MicroserviceArchitecture.createFrontend;
   MicroserviceArchitecture.createApiGateway;
   MicroserviceArchitecture.createUserService;
   MicroserviceArchitecture.createOrderService;
   MicroserviceArchitecture.createPaymentService;
   MicroserviceArchitecture.createInventoryService;
   MicroserviceArchitecture.createSharedServices].

(** A resource is staged when one of the three filters of
    [deployWithStaging] selects it. *)
Definition staged (this : MicroserviceArchitecture.t) (r : resource) : Prop :=
  In r (MicroserviceArchitecture.infrastructure this) \/
  In r (MicroserviceArchitecture.coreServices this) \/
  In r (MicroserviceArchitecture.dependentServices this).

(** ** Properties of the builders *)

Lemma jsstring_eqb_refl (s : jsstring) : jsstring_eqb s s = true.
Proof.
  induction s as [|c s IH]; simpl; [reflexivity|].
  rewrite Z.eqb_refl; exact IH.
Qed.

Lemma jsstring_eqb_eq (s t : jsstring) : jsstring_eqb s t = true <-> s = t.
Proof.
  split; [|intros ->; apply jsstring_eqb_refl].
  revert t; induction s as [|c s IH]; intros [|d t]; simpl; try discriminate; auto.
  intros H; apply andb_true_iff in H as [Hc Hs].
  apply Z.eqb_eq in Hc; subst d; f_equal; auto.
Qed.

Lemma or_else_truthy (a b : value) : truthy a = true -> a ||| b = a.
Proof. unfold or_else; intros ->; reflexivity. Qed.

Lemma or_else_undefined (b : value) : VUndefined ||| b = b.
Proof. reflexivity. Qed.

Lemma get_nil (k : jsstring) : get [] k = VUndefined.
Proof. reflexivity. Qed.

Lemma get_cons_eq k' v o k :
  jsstring_eqb k' k = true -> get ((k', v) :: o) k = v.
Proof. simpl; intros ->; reflexivity. Qed.

Lemma get_cons_neq k' v o k :
  jsstring_eqb k' k = false -> get ((k', v) :: o) k = get o k.
Proof. simpl; intros ->; reflexivity. Qed.

(** Property reads on object literals with literal keys. *)
Ltac js_simpl :=
  repeat first
    [ rewrite get_nil
    | rewrite or_else_undefined
    | rewrite get_cons_eq by reflexivity
    | rewrite get_cons_neq by reflexivity ].

Lemma Deployment_spec_replicas (d : Deployment.t) :
  path (Deployment.toYAML d) ["spec"; "replicas"]%string = Deployment.replicas d.
Proof. reflexivity. Qed.

(** The workload built by [webApp] is the first resource it returns. *)
Lemma webApp_app times name image options :
  exists rest,
    webApp times name image options =
    RDeployment
      (Deployment.constructor name
         [(js "image", image);
          (js "replicas", get options (js "replicas") ||| VNum 3);
          (js "port", get options (js "port") ||| VNum 80);
          (js "env", get options (js "env"));
          (js "namespace", get options (js "namespace"))]) :: rest.
Proof.
  unfold webApp.
  destruct (match get options (js "autoScale") with VBool false => false | _ => true end);
    eexists; reflexivity.
Qed.

(** C1, as stated, fails for the replica count 0: the builder replaces
    it by the default. *)
Lemma C1_zero_replicas_counterexample :
  let options := [(js "replicas", VNum 0)] in
  get options (js "replicas") = VNum 0 /\
  path (Deployment.toYAML (Deployment.constructor (js "api") options))
       ["spec"; "replicas"]%string <> VNum 0.
Proof. split; [reflexivity | discriminate]. Qed.

(** C1 (amended): a workload built with a nonzero replica count [r]
    serializes with [spec.replicas = r]; with the replica count omitted
    it serializes with the default 1; and the workload that [webApp]
    builds when no replica count is given serializes with 3. *)
Theorem C1_replicas_roundtrip (name : jsstring) (options : obj) :
  (forall r, get options (js "replicas") = VNum r -> r <> 0 ->
     path (Deployment.toYAML (Deployment.constructor name options))
          ["spec"; "replicas"]%string = VNum r) /\
  (get options (js "replicas") = VUndefined ->
     path (Deployment.toYAML (Deployment.constructor name options))
          ["spec"; "replicas"]%string = VNum 1 /\
     forall times image, exists app rest,
       webApp times name image options = RDeployment app :: rest /\
       path (Deployment.toYAML app) ["spec"; "replicas"]%string = VNum 3).
Proof.
  split.
  - intros r Hr Hnz.
    rewrite Deployment_spec_replicas; cbn [Deployment.constructor Deployment.replicas].
    rewrite Hr; apply or_else_truthy; simpl.
    apply negb_true_iff, Z.eqb_neq; exact Hnz.
  - intros Hr; split.
    + rewrite Deployment_spec_replicas; cbn [Deployment.constructor Deployment.replicas].
      rewrite Hr; reflexivity.
    + intros times image.
      destruct (webApp_app times name image options) as [rest ->].
      do 2 eexists; split; [reflexivity|].
      rewrite Hr; reflexivity.
Qed.

Lemma C1_replicas_roundtrip_witness :
  path (Deployment.toYAML
          (Deployment.constructor (js "api") [(js "replicas", VNum 5)]))
       ["spec"; "replicas"]%string = VNum 5 /\
  path (Deployment.toYAML (Deployment.constructor (js "api") []))
       ["spec"; "replicas"]%string = VNum 1.
Proof.
  split.
  - apply (proj1 (C1_replicas_roundtrip (js "api") [(js "replicas", VNum 5)]) 5);
      [reflexivity | lia].
  - apply (proj2 (C1_replicas_roundtrip (js "api") [])); reflexivity.
Defined.

(** A port is emitted into the container exactly when it is truthy:
    this is the test by which a workload specifies a port. *)
Lemma container_ports_specified (port : value) :
  container_ports port <> [] <-> truthy port = true.
Proof.
  unfold container_ports; destruct (truthy port); split; intros H;
    try reflexivity; try discriminate; congruence.
Qed.

(** C3: for a workload that specifies a port, the exposure derived by
    [serviceFor] with default options is named [<name>-service], targets
    the workload's name, has type [ClusterIP], and both its port and its
    target port are the workload's port, in the object and in the
    serialized document. *)
Theorem C3_serviceFor_defaults (w : workload) :
  truthy (workload_port w) = true ->
  let s := serviceFor w [] in
  Resource.name (Service.base s) = workload_name w ++ js "-service" /\
  Service.target s = workload_name w /\
  Service.type s = VStr (js "ClusterIP") /\
  Service.port s = workload_port w /\
  Service.targetPort s = workload_port w /\
  path (item (path (Service.toYAML s) ["spec"; "ports"]%string) 0)
       ["targetPort"]%string = workload_port w.
Proof.
  intros Hport s.
  assert (Hp : Service.port s = workload_port w).
  { unfold s, serviceFor, Service.constructor, spread, Service.port, fold_left.
    js_simpl. rewrite (or_else_truthy _ _ Hport). apply or_else_truthy, Hport. }
  assert (Ht : Service.targetPort s = workload_port w).
  { unfold s, serviceFor, Service.constructor, spread, Service.targetPort,
      fold_left, target_port.
    js_simpl. rewrite (or_else_truthy _ _ Hport). reflexivity. }
  repeat split; try assumption; try reflexivity.
Qed.

(** The scenario of the specification: workload [api], image
    [myapi:latest], 3 replicas, port 8080. *)
Lemma C3_serviceFor_api_scenario :
  let api :=
    WDeployment
      (Deployment.constructor (js "api")
         [(js "image", VStr (js "myapi:latest"));
          (js "replicas", VNum 3);
          (js "port", VNum 8080)]) in
  let s := serviceFor api [] in
  Resource.name (Service.base s) = js "api-service" /\
  Service.target s = js "api" /\
  Service.type s = VStr (js "ClusterIP") /\
  Service.port s = VNum 8080 /\
  Service.targetPort s = VNum 8080 /\
  path (item (path (Service.toYAML s) ["spec"; "ports"]%string) 0)
       ["targetPort"]%string = VNum 8080.
Proof.
  exact (C3_serviceFor_defaults
           (WDeployment
              (Deployment.constructor (js "api")
                 [(js "image", VStr (js "myapi:latest"));
                  (js "replicas", VNum 3);
                  (js "port", VNum 8080)]))
           eq_refl).
Defined.

(** The labels every resource is created with name the resource. *)
Lemma Deployment_labels_app (name : jsstring) (options : obj) :
  get (Resource.labels (Deployment.base (Deployment.constructor name options)))
      (js "app") = VStr name.
Proof.
  unfold Deployment.constructor; cbn [Deployment.base].
  destruct (get options (js "autoHeal")) as [| |[|]| | | |]; reflexivity.
Qed.

(** C9: for all constructor options, the selector of a serialized
    Deployment is exactly [{ app: <name> }], the labels of its pod
    template carry [app: <name>], and every selector entry is found
    among the template labels. *)
Theorem C9_selector_matches_template (name : jsstring) (options : obj) :
  let doc := Deployment.toYAML (Deployment.constructor name options) in
  let matchLabels := path doc ["spec"; "selector"; "matchLabels"]%string in
  let labels := path doc ["spec"; "template"; "metadata"; "labels"]%string in
  matchLabels = VObj [(js "app", VStr name)] /\
  field labels "app" = VStr name /\
  forall k v, In (k, v) (entries matchLabels) -> exists o, labels = VObj o /\ get o k = v.
Proof.
  unfold Deployment.constructor, Deployment.toYAML; cbn [Deployment.base].
  destruct (get options (js "autoHeal")) as [| |[|]| | | |];
    (split; [reflexivity | split; [reflexivity |]];
     intros k v [Hkv | []]; inversion Hkv; subst k v;
     eexists; split; reflexivity).
Qed.

Lemma C9_selector_matches_template_witness :
  let doc := Deployment.toYAML (Deployment.constructor (js "api") []) in
  path doc ["spec"; "selector"; "matchLabels"]%string = VObj [(js "app", VStr (js "api"))] /\
  exists o,
    path doc ["spec"; "template"; "metadata"; "labels"]%string = VObj o /\
    get o (js "app") = VStr (js "api").
Proof.
  destruct (C9_selector_matches_template (js "api") []) as [Hsel [_ Hsub]].
  split; [exact Hsel |].
  apply (Hsub (js "app") (VStr (js "api"))); left; reflexivity.
Defined.

(** C10: a Service whose target is a plain string and whose options
    give no [targetPort] has its own port as target port, which is 80
    when [port] is omitted as well; the result is determined by the
    name alone, no workload being consulted. *)
Theorem C10_string_target_port (name target : jsstring) (options : obj) :
  get options (js "targetPort") = VUndefined ->
  let s := Service.constructor name (TString target) options in
  Service.targetPort s = Service.port s /\
  path (item (path (Service.toYAML s) ["spec"; "ports"]%string) 0)
       ["targetPort"]%string = Service.port s /\
  (get options (js "port") = VUndefined -> Service.targetPort s = VNum 80).
Proof.
  intros Htp s.
  assert (H : Service.targetPort s = Service.port s).
  { unfold s, Service.constructor, Service.targetPort, Service.port, target_port.
    rewrite Htp; reflexivity. }
  split; [exact H | split; [exact H |]].
  intros Hp; rewrite H.
  unfold s, Service.constructor, Service.port; rewrite Hp; reflexivity.
Qed.

Lemma C10_string_target_port_witness :
  let s := Service.constructor (js "api-service") (TString (js "api")) [] in
  Service.targetPort s = Service.port s /\
  Service.targetPort s = VNum 80.
Proof.
  destruct (C10_string_target_port (js "api-service") (js "api") [] eq_refl)
    as [H [_ H80]].
  split; [exact H | exact (H80 eq_refl)].
Defined.

Ltac unfold_builders :=
  unfold Deployment.constructor, StatefulSet.constructor, Service.constructor,
    HorizontalPodAutoscaler.constructor, Secret.constructor, ConfigMap.constructor;
  cbn [Deployment.base Deployment.image Deployment.replicas Deployment.port
       Deployment.env Deployment.cpuRequest Deployment.memoryRequest
       Deployment.cpuLimit Deployment.memoryLimit
       StatefulSet.base StatefulSet.image StatefulSet.replicas StatefulSet.port
       StatefulSet.storage StatefulSet.storageClass StatefulSet.env
       Service.base Service.target Service.port Service.targetPort Service.type
       HorizontalPodAutoscaler.base HorizontalPodAutoscaler.target
       HorizontalPodAutoscaler.minReplicas HorizontalPodAutoscaler.maxReplicas
       HorizontalPodAutoscaler.cpuPercent
       Secret.base Secret.data Secret.type ConfigMap.base ConfigMap.data].

Ltac default_table :=
  let H := fresh "H" in
  intros ? ? ? ? H ?; simpl in H;
  repeat (destruct H as [H | H];
          [ inversion H; subst; clear H; unfold_builders;
            match goal with
            | Hk : get _ _ = VUndefined |- _ => rewrite Hk
            end;
            try (destruct (get _ (js "autoHeal")) as [| |[|]| | | |]);
            reflexivity | ]);
  contradiction.

(** C7, as stated, fails: the image of a stateful workload and the port
    of either workload have no default, they stay [undefined] when the
    option is omitted. *)
Lemma C7_missing_defaults_counterexample :
  ~ has_default (StatefulSet.constructor (js "db")) "image" StatefulSet.image /\
  ~ has_default (StatefulSet.constructor (js "db")) "port" StatefulSet.port /\
  ~ has_default (Deployment.constructor (js "web")) "port" Deployment.port.
Proof.
  repeat split; intros H; exact (H [] eq_refl eq_refl).
Qed.

(** C7 (amended): the builders are total functions of their arguments,
    and every option listed in the tables of defaults takes its default
    when omitted: namespace [default] for all six builders; image
    [nginx:latest], replica count 1, empty environment and the resource
    requests and limits for the workload; replica count 1, storage
    [10Gi], storage class [standard] and empty environment for the
    stateful workload; port 80 and type [ClusterIP] for the exposure,
    whose target port falls back to the target's port and then to its
    own; bounds 1 and 10 at 80 percent for the autoscale policy; type
    [Opaque] for the secret.  The port of both workloads and the image
    of the stateful workload are the options verbatim. *)
Theorem C7_builder_defaults
    (name : jsstring) (tgt : target_value) (data : value) (secrets : obj) :
  defaulted (Deployment.constructor name) Deployment_defaults /\
  defaulted (StatefulSet.constructor name) StatefulSet_defaults /\
  defaulted (Service.constructor name tgt) Service_defaults /\
  defaulted (HorizontalPodAutoscaler.constructor name tgt)
            HorizontalPodAutoscaler_defaults /\
  defaulted (Secret.constructor name secrets) Secret_defaults /\
  defaulted (ConfigMap.constructor name data) ConfigMap_defaults /\
  (forall options,
     get options (js "targetPort") = VUndefined ->
     let s := Service.constructor name tgt options in
     Service.targetPort s = target_port tgt ||| Service.port s) /\
  (forall options,
     Deployment.port (Deployment.constructor name options) = get options (js "port") /\
     StatefulSet.port (StatefulSet.constructor name options) = get options (js "port") /\
     StatefulSet.image (StatefulSet.constructor name options) = get options (js "image")).
Proof.
  split; [default_table|].
  split; [default_table|].
  split; [default_table|].
  split; [default_table|].
  split; [default_table|].
  split; [default_table|].
  split.
  - intros options H s; unfold s, Service.constructor, Service.targetPort, Service.port.
    rewrite H; reflexivity.
  - intros options; repeat split.
Qed.

Lemma C7_builder_defaults_witness :
  Deployment.replicas (Deployment.constructor (js "web") []) = VNum 1 /\
  StatefulSet.storage (StatefulSet.constructor (js "db") []) = VStr (js "10Gi") /\
  Service.targetPort (Service.constructor (js "web-service") (TString (js "web")) [])
  = VNum 80.
Proof.
  destruct (C7_builder_defaults (js "web") (TString (js "web")) VUndefined [])
    as [Hd [_ [_ [_ [_ [_ [Ht _]]]]]]].
  destruct (C7_builder_defaults (js "db") (TString (js "db")) VUndefined [])
    as [_ [Hs _]].
  split; [|split].
  - apply (Hd [] "replicas"%string Deployment.replicas (VNum 1));
      [simpl; tauto | reflexivity].
  - apply (Hs [] "storage"%string StatefulSet.storage (VStr (js "10Gi")));
      [simpl; tauto | reflexivity].
  - exact (Ht [] eq_refl).
Defined.

(** ** Properties of submission *)

Lemma world_eta (w : world) : {| files := files w; trace := trace w |} = w.
Proof. destruct w; reflexivity. Qed.

Lemma writes_app (tr tr' : list event) : writes (tr ++ tr') = writes tr ++ writes tr'.
Proof.
  induction tr as [|[l|p d|p|c] tr IH]; simpl; rewrite ?IH; reflexivity.
Qed.

Lemma commands_app (tr tr' : list event) :
  commands (tr ++ tr') = commands tr ++ commands tr'.
Proof.
  induction tr as [|[l|p d|p|c] tr IH]; simpl; rewrite ?IH; reflexivity.
Qed.

Lemma writes_console (lines : list line) : writes (map Console lines) = [].
Proof. induction lines; simpl; auto. Qed.

Lemma commands_console (lines : list line) : commands (map Console lines) = [].
Proof. induction lines; simpl; auto. Qed.

(** The first loop visits every resource in order and only logs. *)
Lemma collect_resources (rs : list resource) :
  forall (allYAML : list value) (w : world),
    collect (map AResource rs) allYAML w =
    (Return (allYAML ++ map toYAML rs),
     {| files := files w;
        trace := trace w ++ map Console (map announcement rs) |}).
Proof.
  induction rs as [|r rs IH]; intros allYAML w; simpl.
  - unfold ret; rewrite !app_nil_r, world_eta; reflexivity.
  - unfold bind, lift, console_log, emit; simpl.
    rewrite IH; simpl.
    rewrite <- !app_assoc; reflexivity.
Qed.

(** The dry-run loop only logs, whether or not a dump fails. *)
Lemma print_documents_logs (dump : value -> outcome jsstring) (docs : list value) :
  forall w : world,
    exists lines,
      snd (print_documents dump docs w) =
      {| files := files w; trace := trace w ++ map Console lines |}.
Proof.
  induction docs as [|d docs IH]; intros w; simpl.
  - exists []; simpl; rewrite app_nil_r, world_eta; reflexivity.
  - unfold bind, lift, console_log, emit; simpl.
    destruct (dump d) as [s|e]; simpl.
    + match goal with
      | |- context [print_documents dump docs ?w1] =>
          destruct (IH w1) as [lines Hl]
      end.
      simpl in Hl.
      exists (Text (js "---") :: Text s :: lines).
      rewrite Hl; simpl; rewrite <- !app_assoc; reflexivity.
    + exists [Text (js "---")]; reflexivity.
Qed.

Lemma bind_eq {A B} (m : M A) (k : A -> M B) (w : world) :
  bind m k w =
  match m w with
  | (Return a, w') => k a w'
  | (Throw e, w') => (Throw e, w')
  end.
Proof. reflexivity. Qed.

(** The second loop computes [documents] of the dumps and touches
    nothing. *)
Lemma concatenate_tail (dump : value -> outcome jsstring) (docs : list value) :
  forall (i : Z) (yamlString : jsstring) (w : world),
    0 < i ->
    concatenate dump docs i yamlString w =
    (outcome_bind (dump_all dump docs)
       (fun ts =>
          Return (yamlString ++ List.concat (map (app [45; 45; 45; 10]) ts))), w).
Proof.
  induction docs as [|d docs IH]; intros i acc w Hi.
  - cbn [concatenate dump_all outcome_bind map List.concat].
    unfold ret; rewrite app_nil_r; reflexivity.
  - cbn [concatenate dump_all]; cbv zeta.
    apply Z.ltb_lt in Hi as Hb; rewrite Hb.
    change (js "---" ++ [10]) with [45; 45; 45; 10].
    rewrite bind_eq; unfold lift.
    destruct (dump d) as [t|e]; cbn [outcome_bind]; [|reflexivity].
    rewrite IH by lia.
    destruct (dump_all dump docs) as [ts|e]; cbn [outcome_bind]; [|reflexivity].
    cbn [map List.concat]; rewrite <- !app_assoc; reflexivity.
Qed.

Lemma documents_cons (t : jsstring) (ts : list jsstring) :
  documents (t :: ts) = t ++ List.concat (map (app [45; 45; 45; 10]) ts).
Proof.
  revert t; induction ts as [|t' ts IH]; intros t.
  - simpl; rewrite app_nil_r; reflexivity.
  - change (documents (t :: t' :: ts))
      with (t ++ [45; 45; 45; 10] ++ documents (t' :: ts)).
    rewrite IH; cbn [map List.concat]; rewrite <- !app_assoc; reflexivity.
Qed.

Lemma concatenate_documents (dump : value -> outcome jsstring)
    (docs : list value) (w : world) :
  concatenate dump docs 0 [] w =
  (outcome_bind (dump_all dump docs) (fun ts => Return (documents ts)), w).
Proof.
  destruct docs as [|d docs]; [reflexivity|].
  simpl; unfold bind, lift; destruct (dump d) as [t|e]; simpl; [|reflexivity].
  rewrite concatenate_tail by lia.
  destruct (dump_all dump docs) as [ts|e]; cbn [outcome_bind]; [|reflexivity].
  rewrite documents_cons; reflexivity.
Qed.

Lemma dump_all_pointwise (dump : value -> outcome jsstring) :
  forall (docs : list value) (texts : list jsstring),
    dump_all dump docs = Return texts <->
    Forall2 (fun d t => dump d = Return t) docs texts.
Proof.
  induction docs as [|d docs IH]; intros texts; simpl.
  - split; intros H; [inversion H; constructor | inversion H; reflexivity].
  - split; intros H.
    + destruct (dump d) as [t|e] eqn:Hd; simpl in H; [|discriminate].
      destruct (dump_all dump docs) as [ts|e] eqn:Hds; simpl in H; [|discriminate].
      inversion H; subst; constructor; [exact Hd | apply IH; reflexivity].
    + inversion H as [|d' t ds ts Hd Hds]; subst.
      rewrite Hd; simpl.
      apply IH in Hds; rewrite Hds; reflexivity.
Qed.

Lemma lookup_remove (fs : filesystem) (path : jsstring) :
  lookup (remove fs path) path = None.
Proof.
  induction fs as [|[p d] fs IH]; simpl; [reflexivity|].
  destruct (jsstring_eqb p path) eqn:E; simpl; [exact IH|].
  rewrite E; exact IH.
Qed.

Lemma remove_absent (fs : filesystem) (path : jsstring) :
  lookup fs path = None -> remove fs path = fs.
Proof.
  induction fs as [|[p d] fs IH]; simpl; [reflexivity|].
  destruct (jsstring_eqb p path) eqn:E; simpl; [discriminate|].
  intros H; rewrite IH by exact H; reflexivity.
Qed.

Lemma remove_written (fs : filesystem) (path data : jsstring) :
  remove ((path, data) :: remove fs path) path = remove fs path.
Proof.
  simpl; rewrite jsstring_eqb_refl; simpl.
  apply remove_absent, lookup_remove.
Qed.

Ltac trace_eq :=
  unfold emit; cbn [files trace]; f_equal;
  repeat first [rewrite map_app | rewrite <- app_assoc | progress cbn [map app]];
  reflexivity.

(** The part of [deploy] before the mode is looked at. *)
Lemma deploy_resources (p : platform) (args : list argument) (rs : list resource)
    (dryRun : value) (apply : bool) (w : world) :
  arguments args = Return (map AResource rs, dryRun, apply) ->
  deploy p args w =
  (let w1 :=
     {| files := files w;
        trace := trace w ++
                 map Console (Deploying (List.length rs) :: map announcement rs) |} in
   if truthy dryRun then
     (console_log DryRunHeader ;;;
      dump <- lift (require_js_yaml p) ;;
      print_documents dump (map toYAML rs) ;;;
      ret true) w1
   else if negb apply then ret true w1
   else
     try_catch
       (dump <- lift (require_js_yaml p) ;;
        yamlString <- concatenate dump (map toYAML rs) 0 [] ;;
        writeFileSync p (tempFile p) yamlString ;;;
        try_finally
          (execSync p (command p) ;;;
           console_log Successful ;;;
           ret true)
          (unlinkSync p (tempFile p)))
       report w1).
Proof.
  intros Hargs; unfold deploy.
  unfold bind at 1; unfold lift at 1; rewrite Hargs.
  unfold bind at 1; unfold console_log at 1.
  unfold bind at 1; rewrite collect_resources.
  cbn [emit files trace app map]; rewrite length_map, <- app_assoc.
  destruct (truthy dryRun); [reflexivity | destruct apply; reflexivity].
Qed.

(** C4: in dry-run mode [deploy] leaves the file system as it was and
    adds only console lines to the trace, so no file is written or
    removed and no process is run; among those lines every resource is
    announced, in order, before the dry-run branch is entered.  This
    holds whether or not the call completes normally. *)
Theorem C4_dry_run_frame (p : platform) (args : list argument) (rs : list resource)
    (dryRun : value) (apply : bool) (w : world) :
  arguments args = Return (map AResource rs, dryRun, apply) ->
  truthy dryRun = true ->
  exists lines,
    let w' := snd (deploy p args w) in
    files w' = files w /\
    trace w' =
      trace w ++
      map Console (Deploying (List.length rs) :: map announcement rs
                   ++ DryRunHeader :: lines) /\
    writes (trace w') = writes (trace w) /\
    commands (trace w') = commands (trace w).
Proof.
  intros Hargs Hdry.
  rewrite (deploy_resources p args rs w Hargs); cbv zeta; rewrite Hdry.
  assert (H : exists lines,
    snd ((console_log DryRunHeader ;;;
          dump <- lift (require_js_yaml p) ;;
          print_documents dump (map toYAML rs) ;;;
          ret true)
           {| files := files w;
              trace := trace w ++
                 map Console (Deploying (List.length rs) :: map announcement rs) |})
    = {| files := files w;
         trace := trace w ++
           map Console (Deploying (List.length rs) :: map announcement rs
                        ++ DryRunHeader :: lines) |}).
  { unfold bind at 1; unfold console_log at 1; cbn [emit files trace].
    unfold bind at 1; unfold lift at 1.
    destruct (require_js_yaml p) as [dump|e].
    - unfold bind at 1.
      match goal with
      | |- context [print_documents dump ?docs ?w1] =>
          destruct (print_documents_logs dump docs w1) as [lines Hl];
          destruct (print_documents dump docs w1) as [[[]|e] w2]
      end; simpl in Hl; subst w2; exists lines; cbn [snd ret]; trace_eq.
    - exists []; cbn [snd]; trace_eq. }
  destruct H as [lines H]; exists lines; cbv zeta; rewrite H; cbn [files trace].
  split; [reflexivity | split; [reflexivity |]].
  rewrite writes_app, commands_app, writes_console, commands_console, !app_nil_r.
  split; reflexivity.
Qed.

Lemma C4_dry_run_frame_witness :
  exists lines,
    let w' :=
      snd (deploy sample_platform
             (map AResource sample_resources
              ++ [AValue (VObj [(js "dryRun", VBool true)])])
             empty_world) in
    files w' = files empty_world /\
    trace w' =
      trace empty_world ++
      map Console (Deploying (List.length sample_resources)
                   :: map announcement sample_resources
                   ++ DryRunHeader :: lines) /\
    writes (trace w') = writes (trace empty_world) /\
    commands (trace w') = commands (trace empty_world).
Proof.
  exact (@C4_dry_run_frame sample_platform
           (map AResource sample_resources
            ++ [AValue (VObj [(js "dryRun", VBool true)])])
           sample_resources (VBool true) true empty_world eq_refl eq_refl).
Defined.

(** The two ways of calling [deploy] on a list of resources. *)
Lemma arguments_with_options (rs : list resource) (options : obj) :
  is_undefined (get options (js "dryRun")) = false ->
  arguments (map AResource rs ++ [AValue (VObj options)]) =
  Return (map AResource rs, get options (js "dryRun"),
          negb (is_false (get options (js "apply")))).
Proof.
  intros Hd; unfold arguments.
  rewrite last_last, removelast_last.
  cbn [typeof_object member and_member argument_truthy truthy outcome_bind].
  rewrite Hd; reflexivity.
Qed.

Lemma last_resource (rs : list resource) (d : argument) :
  rs <> [] -> exists r, last (map AResource rs) d = AResource r.
Proof.
  induction rs as [|r rs IH]; [congruence|]; intros _.
  destruct rs as [|r' rs]; [exists r; reflexivity|].
  destruct IH as [r0 Hr0]; [discriminate|].
  exists r0; exact Hr0.
Qed.

Lemma arguments_resources_only (rs : list resource) :
  rs <> [] ->
  arguments (map AResource rs) = Return (map AResource rs, VUndefined, true).
Proof.
  intros Hrs; unfold arguments.
  destruct (last_resource (AValue VUndefined) Hrs) as [r ->].
  reflexivity.
Qed.

(** What [deploy] does in apply mode, by cases on the host: the module
    is missing, a dump fails, the write is refused, or the file is
    written and the command run, after which the removal is performed
    or refused. *)
Lemma deploy_apply_cases (p : platform) (args : list argument) (rs : list resource)
    (dryRun : value) (w : world) :
  arguments args = Return (map AResource rs, dryRun, true) ->
  truthy dryRun = false ->
  let pre :=
    trace w ++ map Console (Deploying (List.length rs) :: map announcement rs) in
  let written := remove (files w) (tempFile p) in
  match require_js_yaml p with
  | Throw e =>
      deploy p args w =
      (Return false,
       {| files := files w; trace := pre ++ [Console (diagnosis e)] |})
  | Return dump =>
      match dump_all dump (map toYAML rs) with
      | Throw e =>
          deploy p args w =
          (Return false,
           {| files := files w; trace := pre ++ [Console (diagnosis e)] |})
      | Return texts =>
          let yamlString := documents texts in
          let manifest := (tempFile p, yamlString) :: written in
          match refuse_write p (tempFile p) yamlString (files w) with
          | Some (e, remaining) =>
              deploy p args w =
              (Return false,
               {| files := remaining;
                  trace := pre ++ [WriteFile (tempFile p) yamlString;
                                   Console (diagnosis e)] |})
          | None =>
              match run p (command p) manifest,
                    refuse_unlink p (tempFile p) manifest with
              | Return _, None =>
                  deploy p args w =
                  (Return true,
                   {| files := written;
                      trace := pre ++ [WriteFile (tempFile p) yamlString;
                                       Exec (command p);
                                       Console Successful;
                                       Unlink (tempFile p)] |})
              | Throw e, None =>
                  deploy p args w =
                  (Return false,
                   {| files := written;
                      trace := pre ++ [WriteFile (tempFile p) yamlString;
                                       Exec (command p);
                                       Unlink (tempFile p);
                                       Console (diagnosis e)] |})
              | Return _, Some e' =>
                  deploy p args w =
                  (Return false,
                   {| files := manifest;
                      trace := pre ++ [WriteFile (tempFile p) yamlString;
                                       Exec (command p);
                                       Console Successful;
                                       Unlink (tempFile p);
                                       Console (diagnosis e')] |})
              | Throw _, Some e' =>
                  deploy p args w =
                  (Return false,
                   {| files := manifest;
                      trace := pre ++ [WriteFile (tempFile p) yamlString;
                                       Exec (command p);
                                       Unlink (tempFile p);
                                       Console (diagnosis e')] |})
              end
          end
      end
  end.
Proof.
  intros Hargs Hdry pre written.
  rewrite (deploy_resources p args rs w Hargs); cbv zeta; rewrite Hdry.
  cbn [negb]; fold pre.
  unfold try_catch; rewrite bind_eq; unfold lift.
  destruct (require_js_yaml p) as [dump|e]; cbv beta iota.
  2: { unfold report, bind, console_log, ret; trace_eq. }
  rewrite bind_eq, concatenate_documents.
  destruct (dump_all dump (map toYAML rs)) as [texts|e];
    cbn [outcome_bind]; cbv beta iota.
  2: { unfold report, bind, console_log, ret; trace_eq. }
  rewrite bind_eq; unfold writeFileSync; cbn [files trace]; fold written.
  destruct (refuse_write p (tempFile p) (documents texts) (files w))
    as [[e remaining]|]; cbv beta iota.
  { unfold report, bind, console_log, ret; trace_eq. }
  unfold try_finally; rewrite bind_eq; unfold execSync; cbn [emit files trace].
  unfold unlinkSync, emit.
  destruct (run p (command p) ((tempFile p, documents texts) :: written)) as [[]|e];
    cbv beta iota.
  - rewrite bind_eq; unfold console_log, ret, emit.
    cbn [files trace lookup fst]; rewrite jsstring_eqb_refl; cbv beta iota.
    destruct (refuse_unlink p (tempFile p) ((tempFile p, documents texts) :: written))
      as [e'|]; cbv beta iota.
    + unfold report, bind, console_log, ret; trace_eq.
    + unfold written at 1; rewrite remove_written; fold written.
      trace_eq.
  - cbn [files trace lookup fst]; rewrite jsstring_eqb_refl; cbv beta iota.
    destruct (refuse_unlink p (tempFile p) ((tempFile p, documents texts) :: written))
      as [e'|]; cbv beta iota.
    + unfold report, bind, console_log, ret; trace_eq.
    + unfold written at 1; rewrite remove_written; fold written.
      unfold report, bind, console_log, ret; trace_eq.
Qed.

Lemma dump_all_resources (dump : value -> outcome jsstring) :
  forall (rs : list resource) (texts : list jsstring),
    Forall2 (fun r t => dump (toYAML r) = Return t) rs texts ->
    dump_all dump (map toYAML rs) = Return texts.
Proof.
  intros rs texts H; apply dump_all_pointwise.
  induction H; simpl; constructor; assumption.
Qed.

(** In dry-run mode the error of a missing [js-yaml] leaves [deploy]. *)
Lemma deploy_dry_run_throws (p : platform) (args : list argument) (rs : list resource)
    (dryRun : value) (apply : bool) (w : world) (e : error) :
  arguments args = Return (map AResource rs, dryRun, apply) ->
  truthy dryRun = true ->
  require_js_yaml p = Throw e ->
  fst (deploy p args w) = Throw e.
Proof.
  intros Hargs Hdry Hreq.
  rewrite (deploy_resources p args rs w Hargs); cbv zeta; rewrite Hdry.
  rewrite bind_eq; unfold console_log at 1.
  rewrite bind_eq; unfold lift; rewrite Hreq; reflexivity.
Qed.

(** In apply mode the command is run exactly when the module is loaded,
    every document is dumped and the write of the file is performed, and
    then once. *)
Lemma deploy_apply_commands (p : platform) (args : list argument)
    (rs : list resource) (dryRun : value) (w : world) :
  arguments args = Return (map AResource rs, dryRun, true) ->
  truthy dryRun = false ->
  commands (trace (snd (deploy p args w))) =
  commands (trace w) ++
  match require_js_yaml p with
  | Throw _ => []
  | Return dump =>
      match dump_all dump (map toYAML rs) with
      | Throw _ => []
      | Return texts =>
          match refuse_write p (tempFile p) (documents texts) (files w) with
          | Some _ => []
          | None => [command p]
          end
      end
  end.
Proof.
  intros Hargs Hdry.
  pose proof (deploy_apply_cases p args rs w Hargs Hdry) as H; cbv zeta in H.
  destruct (require_js_yaml p) as [dump|e].
  2: { rewrite H; cbn [snd trace].
       rewrite !commands_app, commands_console; cbn [commands app];
    rewrite ?app_nil_r; reflexivity. }
  destruct (dump_all dump (map toYAML rs)) as [texts|e].
  2: { rewrite H; cbn [snd trace].
       rewrite !commands_app, commands_console; cbn [commands app];
    rewrite ?app_nil_r; reflexivity. }
  destruct (refuse_write p (tempFile p) (documents texts) (files w))
    as [[e remaining]|].
  { rewrite H; cbn [snd trace].
    rewrite !commands_app, commands_console; cbn [commands app];
    rewrite ?app_nil_r; reflexivity. }
  destruct (run p (command p) _) as [[]|e];
    destruct (refuse_unlink p (tempFile p) _) as [e'|];
    rewrite H; cbn [snd trace];
    rewrite !commands_app, commands_console; cbn [commands app];
    rewrite ?app_nil_r; reflexivity.
Qed.

(** C5: in apply mode, let the module be loaded, the documents dumped
    and the file written, so that the command is invoked on the files
    with the transient file among them.  If the command fails, [deploy]
    returns [false].  Whether it fails or not, the removal of the file
    is requested after it; where the host performs the removal the files
    left are those from before the call without the transient name (all
    of them when that name was fresh), so no file of that name is left,
    and the trace is the write, the command, and then the removal
    followed by the diagnosis of the failure, or the success message
    followed by the removal. *)
Theorem C5_apply_failure_cleans_up (p : platform) (args : list argument)
    (rs : list resource) (dryRun : value) (w : world)
    (dump : value -> outcome jsstring) (texts : list jsstring) :
  arguments args = Return (map AResource rs, dryRun, true) ->
  truthy dryRun = false ->
  require_js_yaml p = Return dump ->
  dump_all dump (map toYAML rs) = Return texts ->
  refuse_write p (tempFile p) (documents texts) (files w) = None ->
  let manifest := (tempFile p, documents texts) :: remove (files w) (tempFile p) in
  let result := deploy p args w in
  let invoked :=
    trace w ++ map Console (Deploying (List.length rs) :: map announcement rs)
    ++ [WriteFile (tempFile p) (documents texts); Exec (command p)] in
  (forall e, run p (command p) manifest = Throw e -> fst result = Return false) /\
  (exists l rest,
     trace (snd result) = invoked ++ map Console l ++ Unlink (tempFile p) :: rest) /\
  (refuse_unlink p (tempFile p) manifest = None ->
   files (snd result) = remove (files w) (tempFile p) /\
   lookup (files (snd result)) (tempFile p) = None /\
   (lookup (files w) (tempFile p) = None -> files (snd result) = files w) /\
   (forall e,
      run p (command p) manifest = Throw e ->
      trace (snd result) = invoked ++ [Unlink (tempFile p); Console (diagnosis e)]) /\
   (run p (command p) manifest = Return tt ->
    fst result = Return true /\
    trace (snd result) = invoked ++ [Console Successful; Unlink (tempFile p)])).
Proof.
  intros Hargs Hdry Hreq Hdump Hwrite manifest result invoked.
  pose proof (deploy_apply_cases p args rs w Hargs Hdry) as H; cbv zeta in H.
  rewrite Hreq, Hdump, Hwrite in H; fold manifest in H.
  unfold result, invoked.
  destruct (run p (command p) manifest) as [[]|e0];
    destruct (refuse_unlink p (tempFile p) manifest) as [e'|];
    rewrite H; cbn [fst snd files trace].
  - split; [intros e He; discriminate He | split].
    + exists [Successful], [Console (diagnosis e')].
      rewrite <- !app_assoc; reflexivity.
    + intros Hx; discriminate Hx.
  - split; [intros e He; discriminate He | split].
    + exists [Successful], []; rewrite <- !app_assoc; reflexivity.
    + intros _; split; [reflexivity | split; [apply lookup_remove | split; [| split]]].
      * intros Hfresh; apply remove_absent, Hfresh.
      * intros e He; discriminate He.
      * intros _; split; [reflexivity | rewrite <- !app_assoc; reflexivity].
  - split; [intros e He; reflexivity | split].
    + exists [], [Console (diagnosis e')]; rewrite <- !app_assoc; reflexivity.
    + intros Hx; discriminate Hx.
  - split; [intros e He; reflexivity | split].
    + exists [], [Console (diagnosis e0)]; rewrite <- !app_assoc; reflexivity.
    + intros _; split; [reflexivity | split; [apply lookup_remove | split; [| split]]].
      * intros Hfresh; apply remove_absent, Hfresh.
      * intros e He; inversion He; subst e.
        rewrite <- !app_assoc; reflexivity.
      * intros Hx; discriminate Hx.
Qed.

Lemma C5_apply_failure_cleans_up_witness :
  let result := deploy failing_platform (map AResource sample_resources) empty_world in
  fst result = Return false /\
  lookup (files (snd result)) (tempFile failing_platform) = None /\
  files (snd result) = [].
Proof.
  destruct (@C5_apply_failure_cleans_up failing_platform
              (map AResource sample_resources) sample_resources
              VUndefined empty_world sample_dump
              [js "StatefulSet db" ++ [10]; js "Service db-service" ++ [10];
               js "Deployment api" ++ [10]]
              eq_refl eq_refl eq_refl eq_refl eq_refl)
    as [Hfalse [_ Hremoved]].
  destruct (Hremoved eq_refl) as [Hfiles [Hgone _]].
  split; [exact (Hfalse _ eq_refl) | split; [exact Hgone | exact Hfiles]].
Defined.

(** C6 fails in dry-run mode: without [js-yaml] the error of [require]
    leaves [deploy] instead of being logged and turned into [false],
    while the same call in apply mode logs it and returns [false]. *)
Theorem C6_dry_run_failure_escapes :
  fst (deploy bare_platform
         (map AResource sample_resources ++ [AValue (VObj [(js "dryRun", VBool true)])])
         empty_world)
  = Throw {| message := js "Cannot find module 'js-yaml'" |} /\
  deploy bare_platform (map AResource sample_resources) empty_world
  = (Return false,
     {| files := [];
        trace := map Console (Deploying 3 :: map announcement sample_resources
                              ++ [JsYamlRequired]) |}).
Proof.
  split.
  - eapply deploy_dry_run_throws with (rs := sample_resources) (apply := true);
      reflexivity.
  - vm_compute; reflexivity.
Qed.

(** C8: in apply mode, when every document can be dumped, [deploy] asks
    for one write, of the dumps of the resources in the order they were
    passed, each two separated by the line [---]: none is left out, none
    added and none moved.  Where the write is performed the command is
    then run, once; where it is refused no command is run. *)
Theorem C8_documents_in_order (p : platform) (args : list argument)
    (rs : list resource) (dryRun : value) (w : world)
    (dump : value -> outcome jsstring) (texts : list jsstring) :
  arguments args = Return (map AResource rs, dryRun, true) ->
  truthy dryRun = false ->
  require_js_yaml p = Return dump ->
  Forall2 (fun r t => dump (toYAML r) = Return t) rs texts ->
  exists rest,
    trace (snd (deploy p args w)) =
      trace w ++ map Console (Deploying (List.length rs) :: map announcement rs)
      ++ WriteFile (tempFile p) (documents texts) :: rest /\
    writes rest = [] /\
    match refuse_write p (tempFile p) (documents texts) (files w) with
    | None => exists rest', rest = Exec (command p) :: rest' /\ commands rest' = []
    | Some _ => commands rest = []
    end.
Proof.
  intros Hargs Hdry Hreq Hdump.
  pose proof (deploy_apply_cases p args rs w Hargs Hdry) as H; cbv zeta in H.
  rewrite Hreq, (dump_all_resources dump Hdump) in H.
  destruct (refuse_write p (tempFile p) (documents texts) (files w))
    as [[e remaining]|].
  { rewrite H; cbn [snd trace]; eexists.
    split; [rewrite <- app_assoc; reflexivity | split; reflexivity]. }
  destruct (run p (command p) _) as [[]|e];
    destruct (refuse_unlink p (tempFile p) _) as [e'|];
    rewrite H; cbn [snd trace]; eexists;
    (split; [rewrite <- app_assoc; reflexivity
            | split; [reflexivity | eexists; split; reflexivity]]).
Qed.

Lemma C8_documents_in_order_witness :
  exists rest,
    trace (snd (deploy sample_platform (map AResource sample_resources) empty_world)) =
      map Console (Deploying 3 :: map announcement sample_resources)
      ++ WriteFile (tempFile sample_platform)
           (js "StatefulSet db" ++ [10] ++ js "---" ++ [10]
            ++ js "Service db-service" ++ [10] ++ js "---" ++ [10]
            ++ js "Deployment api" ++ [10])
         :: rest /\
    writes rest = [] /\
    exists rest', rest = Exec (command sample_platform) :: rest' /\ commands rest' = [].
Proof.
  exact (@C8_documents_in_order sample_platform (map AResource sample_resources)
           sample_resources VUndefined empty_world sample_dump
           [js "StatefulSet db" ++ [10];
            js "Service db-service" ++ [10];
            js "Deployment api" ++ [10]]
           eq_refl eq_refl eq_refl
           (Forall2_cons _ _ eq_refl
              (Forall2_cons _ _ eq_refl
                 (Forall2_cons _ _ eq_refl (Forall2_nil _))))).
Defined.

(** ** Properties of buffers *)

Ltac arith := Z.div_mod_to_equations; lia.

(** Decide the comparisons of a goal by linear arithmetic. *)
Ltac settle_tests :=
  repeat match goal with
    | |- context [?a <? ?b] =>
        first [ replace (a <? b) with true by (symmetry; apply Z.ltb_lt; arith)
              | replace (a <? b) with false by (symmetry; apply Z.ltb_ge; arith) ]
    | |- context [?a <=? ?b] =>
        first [ replace (a <=? b) with true by (symmetry; apply Z.leb_le; arith)
              | replace (a <=? b) with false by (symmetry; apply Z.leb_gt; arith) ]
    | |- context [?a =? ?b] =>
        first [ replace (a =? b) with true by (symmetry; apply Z.eqb_eq; arith)
              | replace (a =? b) with false by (symmetry; apply Z.eqb_neq; arith) ]
    end;
  cbn [andb orb negb].

Lemma base64_index_char (i : Z) :
  0 <= i < 64 -> Buffer.base64_index (Buffer.base64_char i) = Some i.
Proof.
  intros Hi; unfold Buffer.base64_char.
  destruct (Z.ltb_spec i 26); [|destruct (Z.ltb_spec i 52);
    [|destruct (Z.ltb_spec i 62); [|destruct (Z.eqb_spec i 62)]]];
    unfold Buffer.base64_index; settle_tests; f_equal; lia.
Qed.

Lemma base64_char_not_pad (i : Z) :
  0 <= i < 64 -> (Buffer.base64_char i =? Buffer.pad) = false.
Proof.
  intros Hi; unfold Buffer.base64_char, Buffer.pad.
  destruct (Z.ltb_spec i 26); [|destruct (Z.ltb_spec i 52);
    [|destruct (Z.ltb_spec i 62); [|destruct (Z.eqb_spec i 62)]]];
    apply Z.eqb_neq; lia.
Qed.

(** Base64: reading back what [toString('base64')] wrote. *)
Lemma base64_roundtrip_bounded (n : nat) :
  forall bytes : list Z,
    (List.length bytes <= n)%nat ->
    Forall byte bytes ->
    Buffer.from_base64 (Buffer.toString_base64 bytes) = Some bytes.
Proof.
  induction n as [|n IH]; intros bytes Hlen Hb.
  - destruct bytes; [reflexivity | simpl in Hlen; lia].
  - destruct bytes as [|a [|b [|c rest]]]; [reflexivity | | |].
    + inversion Hb as [|? ? Ha _]; subst; unfold byte in Ha.
      cbn [Buffer.toString_base64 Buffer.from_base64].
      rewrite !base64_index_char by arith.
      rewrite !Z.eqb_refl; cbn [andb].
      f_equal; f_equal; arith.
    + inversion Hb as [|? ? Ha Hb']; subst; inversion Hb' as [|? ? Hb1 _]; subst.
      unfold byte in Ha, Hb1.
      cbn [Buffer.toString_base64 Buffer.from_base64].
      rewrite !base64_index_char by arith.
      rewrite base64_char_not_pad by arith.
      rewrite !Z.eqb_refl.
      f_equal; f_equal; [arith | f_equal; arith].
    + inversion Hb as [|? ? Ha Hb']; subst; inversion Hb' as [|? ? Hb1 Hb'']; subst.
      inversion Hb'' as [|? ? Hc Hrest]; subst.
      unfold byte in Ha, Hb1, Hc.
      cbn [Buffer.toString_base64 app Buffer.from_base64].
      rewrite !base64_index_char by arith.
      rewrite !base64_char_not_pad by arith.
      rewrite IH by (simpl in Hlen; auto; lia).
      f_equal; f_equal; [arith | f_equal; [arith | f_equal; arith]].
Qed.

Lemma base64_roundtrip (bytes : list Z) :
  Forall byte bytes ->
  Buffer.from_base64 (Buffer.toString_base64 bytes) = Some bytes.
Proof. apply (base64_roundtrip_bounded (n := List.length bytes)); lia. Qed.

(** UTF-8: the bytes of one code point are bytes, and are read back as
    the code point. *)
Lemma utf8_of_code_point_bytes (cp : Z) :
  0 <= cp < 0x110000 -> Forall byte (Buffer.utf8_of_code_point cp).
Proof.
  intros Hcp; unfold Buffer.utf8_of_code_point, byte.
  destruct (Z.ltb_spec cp 0x80); [|destruct (Z.ltb_spec cp 0x800);
    [|destruct (Z.ltb_spec cp 0x10000)]];
    repeat constructor; arith.
Qed.

Lemma toString_utf8_code_point (cp : Z) (bytes : list Z) :
  0 <= cp < 0x110000 ->
  Buffer.toString_utf8 (Buffer.utf8_of_code_point cp ++ bytes) =
  option_map (app (Buffer.utf16_of_code_point cp)) (Buffer.toString_utf8 bytes).
Proof.
  intros Hcp; unfold Buffer.utf8_of_code_point.
  destruct (Z.ltb_spec cp 0x80); [|destruct (Z.ltb_spec cp 0x800);
    [|destruct (Z.ltb_spec cp 0x10000)]];
    cbn [app Buffer.toString_utf8]; unfold Buffer.is_continuation; settle_tests.
  - unfold Buffer.utf16_of_code_point; settle_tests; reflexivity.
  - f_equal; f_equal; f_equal; arith.
  - f_equal; f_equal; f_equal; arith.
  - f_equal; f_equal; f_equal; arith.
Qed.

Lemma surrogate_pair_code_point (hi lo : Z) :
  Buffer.is_high_surrogate hi = true ->
  Buffer.is_low_surrogate lo = true ->
  0 <= Buffer.code_point_of_pair hi lo < 0x110000 /\
  Buffer.utf16_of_code_point (Buffer.code_point_of_pair hi lo) = [hi; lo].
Proof.
  unfold Buffer.is_high_surrogate, Buffer.is_low_surrogate.
  intros Hhi Hlo.
  apply andb_true_iff in Hhi as [Hh1 Hh2]; apply andb_true_iff in Hlo as [Hl1 Hl2].
  apply Z.leb_le in Hh1, Hh2, Hl1, Hl2.
  unfold Buffer.code_point_of_pair; split; [lia|].
  unfold Buffer.utf16_of_code_point; settle_tests.
  f_equal; [arith | f_equal; arith].
Qed.

(** A well-formed string is turned into bytes and read back unchanged. *)
Lemma utf8_roundtrip_bounded (n : nat) :
  forall s : jsstring,
    (List.length s <= n)%nat ->
    Buffer.well_formed s = true ->
    Forall byte (Buffer.from s) /\
    Buffer.toString_utf8 (Buffer.from s) = Some s.
Proof.
  induction n as [|n IH]; intros s Hlen Hwf.
  - destruct s; [split; [constructor | reflexivity] | simpl in Hlen; lia].
  - destruct s as [|c rest]; [split; [constructor | reflexivity]|].
    cbn [Buffer.well_formed Buffer.from] in *.
    destruct (Buffer.is_high_surrogate c) eqn:Hhi.
    + destruct rest as [|d rest']; [discriminate|].
      apply andb_true_iff in Hwf as [Hlo Hwf]; rewrite Hlo.
      destruct (surrogate_pair_code_point c d Hhi Hlo) as [Hcp Hpair].
      destruct (IH rest') as [Hbytes Hback]; [simpl in Hlen; lia | exact Hwf |].
      split.
      * apply Forall_app; split; [apply utf8_of_code_point_bytes; exact Hcp | exact Hbytes].
      * rewrite toString_utf8_code_point by exact Hcp.
        rewrite Hback, Hpair; reflexivity.
    + destruct (Buffer.is_low_surrogate c) eqn:Hlo; [discriminate|].
      apply andb_true_iff in Hwf as [Hc Hwf].
      apply andb_true_iff in Hc as [Hc0 Hc1].
      apply Z.leb_le in Hc0; apply Z.ltb_lt in Hc1.
      destruct (IH rest) as [Hbytes Hback]; [simpl in Hlen; lia | exact Hwf |].
      split.
      * apply Forall_app; split; [apply utf8_of_code_point_bytes; lia | exact Hbytes].
      * rewrite toString_utf8_code_point by lia.
        rewrite Hback; unfold Buffer.utf16_of_code_point.
        apply Z.ltb_lt in Hc1; rewrite Hc1; reflexivity.
Qed.

Lemma utf8_roundtrip (s : jsstring) :
  Buffer.well_formed s = true ->
  Forall byte (Buffer.from s) /\
  Buffer.toString_utf8 (Buffer.from s) = Some s.
Proof. apply (utf8_roundtrip_bounded (n := List.length s)); lia. Qed.

(** One value of a secret: a well-formed string is decoded back. *)
Lemma decode_encode (s : jsstring) :
  Buffer.well_formed s = true ->
  decode (Secret.encode (VStr s)) = Some (VStr s).
Proof.
  intros Hwf; destruct (utf8_roundtrip s Hwf) as [Hbytes Hback].
  unfold decode, Secret.encode; cbn [ToString].
  rewrite (base64_roundtrip Hbytes), Hback; reflexivity.
Qed.

(** The loop over the entries: with distinct keys other than
    [__proto__], [encodedData] is the entry-wise image of the data. *)
Lemma has_false_get_define (o : obj) (k : jsstring) (v : value) :
  has o k = false -> define o k v = o ++ [(k, v)].
Proof.
  induction o as [|[k0 v0] o IH]; simpl; [reflexivity|].
  intros H; apply orb_false_iff in H as [Hk Ho].
  rewrite Hk, IH by exact Ho; reflexivity.
Qed.

Lemma has_app (o o' : obj) (k : jsstring) : has (o ++ o') k = has o k || has o' k.
Proof.
  induction o as [|[k0 v0] o IH]; simpl; [reflexivity|].
  rewrite IH, orb_assoc; reflexivity.
Qed.

Lemma encodedData_entries (data : obj) :
  distinct_keys data = true ->
  has data (js "__proto__") = false ->
  Secret.encodedData data = map (fun kv => (fst kv, Secret.encode (snd kv))) data.
Proof.
  unfold Secret.encodedData.
  change (map (fun kv => (fst kv, Secret.encode (snd kv))) data)
    with ([] ++ map (fun kv => (fst kv, Secret.encode (snd kv))) data).
  assert (Hacc : forall k, has data k = true -> has (@nil (jsstring * value)) k = false)
    by reflexivity.
  revert Hacc; generalize (@nil (jsstring * value)) as acc.
  induction data as [|[k v] data IH]; intros acc Hacc Hd Hp; simpl.
  - rewrite app_nil_r; reflexivity.
  - simpl in Hd, Hp.
    apply andb_true_iff in Hd as [Hk Hd]; apply negb_true_iff in Hk.
    apply orb_false_iff in Hp as [Hkp Hp].
    unfold assign; rewrite Hkp.
    rewrite has_false_get_define
      by (apply Hacc; simpl; rewrite jsstring_eqb_refl; reflexivity).
    rewrite IH; [rewrite <- app_assoc; reflexivity | | exact Hd | exact Hp].
    intros k' Hk'; rewrite has_app; simpl.
    rewrite (Hacc k') by (simpl; rewrite Hk'; apply orb_true_r).
    destruct (jsstring_eqb k k') eqn:E; [|reflexivity].
    apply jsstring_eqb_eq in E; subst k'; congruence.
Qed.

Lemma decode_all_entries (data : obj) :
  string_values data = true ->
  decode_all (map (fun kv => (fst kv, Secret.encode (snd kv))) data) = Some data.
Proof.
  induction data as [|[k v] data IH]; [reflexivity|].
  unfold string_values; cbn [forallb map decode_all fst snd]; intros H.
  apply andb_true_iff in H as [Hv Hd].
  destruct v as [| | | |s| |]; try discriminate.
  rewrite (decode_encode s Hv), (IH Hd); reflexivity.
Qed.

(** C2, as stated, fails for a string with an unpaired surrogate: the
    secrets [{ k: "\uD800" }] and [{ k: "\uFFFD" }] differ and serialize
    to the same document, so no decoding gives both inputs back; the
    value written is the base64 of the bytes of U+FFFD.  It also fails
    for an entry stored under the key [__proto__], which the loop loses. *)
Lemma C2_roundtrip_counterexample :
  let lone := Secret.constructor (js "s") [(js "k", VStr [0xD800])] [] in
  let repl := Secret.constructor (js "s") [(js "k", VStr [0xFFFD])] [] in
  let proto := Secret.constructor (js "s") [(js "__proto__", VStr (js "x"))] [] in
  Secret.data lone <> Secret.data repl /\
  Secret.toYAML lone = Secret.toYAML repl /\
  field (Secret.toYAML lone) "data" = VObj [(js "k", VStr (js "77+9"))] /\
  decode_all [(js "k", VStr (js "77+9"))] = Some [(js "k", VStr [0xFFFD])] /\
  field (Secret.toYAML proto) "data" = VObj [].
Proof.
  repeat split; try reflexivity.
  cbn; intros H; discriminate H.
Qed.

(** C2 (amended): for a secret whose data maps distinct keys other than
    [__proto__] to strings without unpaired surrogates, every value of
    the serialized [data] is the base64 encoding of the UTF-8 bytes of
    the original value, under the same key and in the same order, and
    decoding every output value gives back the input mapping. *)
Theorem C2_secret_roundtrip (name : jsstring) (data options : obj) :
  string_mapping data = true ->
  let encoded := map (fun kv => (fst kv, Secret.encode (snd kv))) data in
  field (Secret.toYAML (Secret.constructor name data options)) "data" = VObj encoded /\
  decode_all encoded = Some data.
Proof.
  unfold string_mapping; intros H.
  apply andb_true_iff in H as [H Hvalues]; apply andb_true_iff in H as [Hkeys Hproto].
  apply negb_true_iff in Hproto.
  split.
  - change (field (Secret.toYAML (Secret.constructor name data options)) "data")
      with (VObj (Secret.encodedData data)).
    rewrite (encodedData_entries data Hkeys Hproto); reflexivity.
  - apply decode_all_entries; exact Hvalues.
Qed.

Lemma C2_secret_roundtrip_witness :
  let data := [(js "api_key", VStr (js "super-secret-key"));
               (js "motto", VStr [0x20AC; 0xE9; 0xD83D; 0xDE80])] in
  let encoded := map (fun kv => (fst kv, Secret.encode (snd kv))) data in
  field (Secret.toYAML (Secret.constructor (js "app-secrets") data [])) "data"
  = VObj encoded /\
  decode_all encoded = Some data.
Proof.
  exact (C2_secret_roundtrip (js "app-secrets")
           [(js "api_key", VStr (js "super-secret-key"));
            (js "motto", VStr [0x20AC; 0xE9; 0xD83D; 0xDE80])] [] eq_refl).
Defined.

(** ** Further properties of the builders *)

Lemma get_absent (o : obj) (k : jsstring) : has o k = false -> get o k = VUndefined.
Proof.
  induction o as [|[k0 v0] o IH]; simpl; [reflexivity|].
  intros H; apply orb_false_iff in H as [Hk Ho]; rewrite Hk; exact (IH Ho).
Qed.

Lemma get_define_other (o : obj) (k k' : jsstring) (v : value) :
  jsstring_eqb k k' = false -> get (define o k v) k' = get o k'.
Proof.
  intros Hk; induction o as [|[k0 v0] o IH]; simpl.
  - rewrite Hk; reflexivity.
  - destruct (jsstring_eqb k0 k) eqn:E0; simpl.
    + apply jsstring_eqb_eq in E0; subst k0; rewrite Hk; reflexivity.
    + destruct (jsstring_eqb k0 k'); [reflexivity | exact IH].
Qed.

Lemma get_define_same (o : obj) (k : jsstring) (v : value) :
  get (define o k v) k = v.
Proof.
  induction o as [|[k0 v0] o IH]; simpl.
  - rewrite jsstring_eqb_refl; reflexivity.
  - destruct (jsstring_eqb k0 k) eqn:E0; simpl; rewrite E0; [reflexivity | exact IH].
Qed.

(** A spread leaves the keys it does not carry, and overrides the ones
    it carries. *)
Lemma get_spread_absent (o : obj) (k : jsstring) :
  forall base, has o k = false -> get (spread base o) k = get base k.
Proof.
  unfold spread; induction o as [|[k0 v0] o IH]; intros base H; simpl; [reflexivity|].
  simpl in H; apply orb_false_iff in H as [Hk Ho].
  rewrite IH by exact Ho; apply get_define_other; exact Hk.
Qed.

Lemma get_spread_present (o : obj) (k : jsstring) :
  forall base,
    distinct_keys o = true -> has o k = true -> get (spread base o) k = get o k.
Proof.
  induction o as [|[k0 v0] o IH]; intros base Hd H; [discriminate|].
  simpl in Hd; apply andb_true_iff in Hd as [Hk0 Hd]; apply negb_true_iff in Hk0.
  change (spread base ((k0, v0) :: o)) with (spread (define base k0 v0) o).
  simpl in H |- *.
  destruct (jsstring_eqb k0 k) eqn:E.
  - apply jsstring_eqb_eq in E; subst k0.
    rewrite get_spread_absent by exact Hk0; apply get_define_same.
  - apply IH; [exact Hd | exact H].
Qed.

Lemma or_else_idem (a d : value) : (a ||| d) ||| d = a ||| d.
Proof.
  unfold or_else; destruct (truthy a) eqn:Ha; [rewrite Ha; reflexivity|].
  destruct (truthy d); reflexivity.
Qed.

Lemma or_else_fallback_truthy (a d : value) :
  truthy d = true -> truthy (a ||| d) = true.
Proof. unfold or_else; intros Hd; destruct (truthy a) eqn:Ha; assumption. Qed.

(** The options that [serviceFor] hands to [Service]. *)
Lemma serviceFor_options (w : workload) (options : obj) (k : jsstring) :
  distinct_keys options = true ->
  get (spread
         [(js "port", get options (js "port") ||| workload_port w ||| VNum 80);
          (js "type", get options (js "type") ||| VStr (js "ClusterIP"));
          (js "namespace", workload_namespace w)]
         options) k =
  if has options k then get options k
  else get [(js "port", get options (js "port") ||| workload_port w ||| VNum 80);
            (js "type", get options (js "type") ||| VStr (js "ClusterIP"));
            (js "namespace", workload_namespace w)] k.
Proof.
  intros Hd; destruct (has options k) eqn:Hk.
  - apply get_spread_present; assumption.
  - apply get_spread_absent; assumption.
Qed.

(** X1: the exposure that [serviceFor] derives, with options that do not
    name a namespace, lives in the namespace of the workload (or in
    [default] if that is falsy), and its selector is [app: <name>],
    which the pod template of a workload built under that name
    carries, Deployment and StatefulSet alike. *)
Theorem X1_serviceFor_selects_workload (w : workload) (options : obj) :
  distinct_keys options = true ->
  has options (js "namespace") = false ->
  let doc := Service.toYAML (serviceFor w options) in
  path doc ["metadata"; "namespace"]%string
  = workload_namespace w ||| VStr (js "default") /\
  path doc ["spec"; "selector"]%string = VObj [(js "app", VStr (workload_name w))] /\
  (forall name o,
     path (Deployment.toYAML (Deployment.constructor name o))
          ["spec"; "template"; "metadata"; "labels"; "app"]%string = VStr name) /\
  (forall name o,
     path (StatefulSet.toYAML (StatefulSet.constructor name o))
          ["spec"; "template"; "metadata"; "labels"; "app"]%string = VStr name).
Proof.
  intros Hd Hns doc.
  split; [| split; [reflexivity | split]].
  - change (path doc ["metadata"; "namespace"]%string)
      with (Resource.namespace (Service.base (serviceFor w options))).
    unfold serviceFor, Service.constructor; cbn [Service.base Resource.constructor
      Resource.namespace].
    rewrite serviceFor_options by exact Hd; rewrite Hns.
    js_simpl; reflexivity.
  - intros name o; unfold Deployment.constructor, Deployment.toYAML; cbn [Deployment.base].
    destruct (get o (js "autoHeal")) as [| |[|]| | | |]; reflexivity.
  - intros name o; reflexivity.
Qed.

Lemma X1_serviceFor_selects_workload_witness :
  let w := WStatefulSet
             (StatefulSet.constructor (js "db")
                [(js "image", VStr (js "postgres:13"));
                 (js "namespace", VStr (js "prod"))]) in
  let doc := Service.toYAML (serviceFor w [(js "type", VStr (js "NodePort"))]) in
  path doc ["metadata"; "namespace"]%string = VStr (js "prod") /\
  path doc ["spec"; "selector"]%string = VObj [(js "app", VStr (js "db"))].
Proof.
  destruct (@X1_serviceFor_selects_workload
              (WStatefulSet
                 (StatefulSet.constructor (js "db")
                    [(js "image", VStr (js "postgres:13"));
                     (js "namespace", VStr (js "prod"))]))
              [(js "type", VStr (js "NodePort"))] eq_refl eq_refl)
    as [Hns [Hsel _]].
  split; [exact Hns | exact Hsel].
Defined.

(** X2: with options of its own, [serviceFor] gives the exposure the
    type [options.type || 'ClusterIP']; its port is the workload's port
    (or 80) only when the options carry no [port] key, since a [port]
    key, even one holding [undefined] or 0, replaces the port computed
    from the workload and the exposure falls back to 80; the target
    port is [options.targetPort], else the workload's port, else the
    exposure's port. *)
Theorem X2_serviceFor_options (w : workload) (options : obj) :
  distinct_keys options = true ->
  let s := serviceFor w options in
  Service.type s = get options (js "type") ||| VStr (js "ClusterIP") /\
  Service.port s =
    (if has options (js "port") then get options (js "port") ||| VNum 80
     else workload_port w ||| VNum 80) /\
  Service.targetPort s =
    get options (js "targetPort") ||| (workload_port w ||| Service.port s).
Proof.
  intros Hd s.
  assert (Hport : Service.port s =
    (if has options (js "port") then get options (js "port") ||| VNum 80
     else workload_port w ||| VNum 80)).
  { unfold s, serviceFor, Service.constructor; cbn [Service.port].
    rewrite serviceFor_options by exact Hd.
    destruct (has options (js "port")) eqn:Hp; [reflexivity|].
    js_simpl; rewrite (get_absent _ _ Hp); js_simpl; apply or_else_idem. }
  split; [| split; [exact Hport |]].
  - unfold s, serviceFor, Service.constructor; cbn [Service.type].
    rewrite serviceFor_options by exact Hd.
    destruct (has options (js "type")) eqn:Ht; [reflexivity|].
    js_simpl; apply or_else_idem.
  - change (Service.targetPort s =
            get options (js "targetPort") ||| (workload_port w ||| Service.port s)).
    unfold s at 1, serviceFor, Service.constructor; cbn [Service.targetPort].
    fold (serviceFor w options).
    rewrite serviceFor_options by exact Hd.
    destruct (has options (js "targetPort")) eqn:Ht.
    + reflexivity.
    + js_simpl; rewrite (get_absent _ _ Ht); reflexivity.
Qed.

Lemma X2_serviceFor_options_witness :
  let app := WDeployment (Deployment.constructor (js "api") [(js "port", VNum 8080)]) in
  Service.port (serviceFor app [(js "port", VUndefined)]) = VNum 80 /\
  Service.targetPort (serviceFor app [(js "port", VUndefined)]) = VNum 8080 /\
  Service.port (serviceFor app [(js "type", VStr (js "NodePort"))]) = VNum 8080 /\
  Service.type (serviceFor app [(js "type", VStr (js "NodePort"))])
  = VStr (js "NodePort").
Proof.
  destruct (@X2_serviceFor_options
              (WDeployment (Deployment.constructor (js "api") [(js "port", VNum 8080)]))
              [(js "port", VUndefined)] eq_refl) as [_ [Hp Ht]].
  destruct (@X2_serviceFor_options
              (WDeployment (Deployment.constructor (js "api") [(js "port", VNum 8080)]))
              [(js "type", VStr (js "NodePort"))] eq_refl) as [Hty [Hp' _]].
  split; [exact Hp | split; [| split; [exact Hp' | exact Hty]]].
  rewrite Ht; reflexivity.
Defined.

Lemma autoscaleFor_options (w : workload) (options : obj) (k : jsstring) :
  distinct_keys options = true ->
  get (spread
         [(js "minReplicas", get options (js "minReplicas") ||| VNum 1);
          (js "maxReplicas", get options (js "maxReplicas") ||| VNum 10);
          (js "cpuPercent", get options (js "cpuPercent") ||| VNum 80);
          (js "namespace", workload_namespace w)]
         options) k =
  if has options k then get options k
  else get [(js "minReplicas", get options (js "minReplicas") ||| VNum 1);
            (js "maxReplicas", get options (js "maxReplicas") ||| VNum 10);
            (js "cpuPercent", get options (js "cpuPercent") ||| VNum 80);
            (js "namespace", workload_namespace w)] k.
Proof.
  intros Hd; destruct (has options k) eqn:Hk.
  - apply get_spread_present; assumption.
  - apply get_spread_absent; assumption.
Qed.

(** X3: the policy that [autoscaleFor] derives is named [<name>-hpa],
    has the bounds and the utilization of the options, or 1, 10 and 80
    where an option is missing or falsy (a lower bound 0 becomes 1), and
    its document refers to a [Deployment] of the workload's name, also
    when the workload is a StatefulSet. *)
Theorem X3_autoscaleFor (w : workload) (options : obj) :
  distinct_keys options = true ->
  let h := autoscaleFor w options in
  Resource.name (HorizontalPodAutoscaler.base h) = workload_name w ++ js "-hpa" /\
  HorizontalPodAutoscaler.minReplicas h = get options (js "minReplicas") ||| VNum 1 /\
  HorizontalPodAutoscaler.maxReplicas h = get options (js "maxReplicas") ||| VNum 10 /\
  HorizontalPodAutoscaler.cpuPercent h = get options (js "cpuPercent") ||| VNum 80 /\
  path (HorizontalPodAutoscaler.toYAML h) ["spec"; "scaleTargetRef"]%string
  = VObj [(js "apiVersion", VStr (js "apps/v1"));
          (js "kind", VStr (js "Deployment"));
          (js "name", VStr (workload_name w))].
Proof.
  intros Hd h.
  split; [reflexivity |].
  unfold h, autoscaleFor, HorizontalPodAutoscaler.constructor;
    cbn [HorizontalPodAutoscaler.minReplicas HorizontalPodAutoscaler.maxReplicas
         HorizontalPodAutoscaler.cpuPercent].
  rewrite !autoscaleFor_options by exact Hd.
  repeat split.
  - destruct (has options (js "minReplicas")); [reflexivity | js_simpl; apply or_else_idem].
  - destruct (has options (js "maxReplicas")); [reflexivity | js_simpl; apply or_else_idem].
  - destruct (has options (js "cpuPercent")); [reflexivity | js_simpl; apply or_else_idem].
Qed.

Lemma X3_autoscaleFor_witness :
  let db := WStatefulSet (StatefulSet.constructor (js "db") []) in
  let h := autoscaleFor db [(js "minReplicas", VNum 0); (js "maxReplicas", VNum 4)] in
  HorizontalPodAutoscaler.minReplicas h = VNum 1 /\
  HorizontalPodAutoscaler.maxReplicas h = VNum 4 /\
  path (HorizontalPodAutoscaler.toYAML h) ["spec"; "scaleTargetRef"; "kind"]%string
  = VStr (js "Deployment").
Proof.
  destruct (@X3_autoscaleFor (WStatefulSet (StatefulSet.constructor (js "db") []))
              [(js "minReplicas", VNum 0); (js "maxReplicas", VNum 4)] eq_refl)
    as [_ [Hmin [Hmax [_ Href]]]].
  split; [exact Hmin | split; [exact Hmax |]].
  change (path (path (HorizontalPodAutoscaler.toYAML
                        (autoscaleFor (WStatefulSet (StatefulSet.constructor (js "db") []))
                           [(js "minReplicas", VNum 0); (js "maxReplicas", VNum 4)]))
                  ["spec"; "scaleTargetRef"]%string) ["kind"]%string
          = VStr (js "Deployment")).
  rewrite Href; reflexivity.
Defined.

(** X4: a Service built on a workload object whose port is truthy, with
    no [targetPort] option, forwards to the workload's port whatever
    port the Service itself listens on. *)
Theorem X4_Service_targets_workload_port
    (name : jsstring) (w : workload) (options : obj) :
  truthy (workload_port w) = true ->
  get options (js "targetPort") = VUndefined ->
  let s := Service.constructor name (TWorkload w) options in
  Service.targetPort s = workload_port w /\
  Service.port s = get options (js "port") ||| VNum 80 /\
  Service.target s = workload_name w.
Proof.
  intros Hp Ht s; repeat split.
  unfold s, Service.constructor; cbn [Service.targetPort target_port].
  rewrite Ht; js_simpl; apply or_else_truthy; exact Hp.
Qed.

Lemma X4_Service_targets_workload_port_witness :
  let rabbitmq :=
    WDeployment (Deployment.constructor (js "rabbitmq") [(js "port", VNum 5672)]) in
  let s := Service.constructor (js "rabbitmq-mgmt") (TWorkload rabbitmq)
             [(js "port", VNum 15672)] in
  Service.targetPort s = VNum 5672 /\
  Service.port s = VNum 15672 /\
  Service.target s = js "rabbitmq".
Proof.
  exact (@X4_Service_targets_workload_port (js "rabbitmq-mgmt")
           (WDeployment (Deployment.constructor (js "rabbitmq") [(js "port", VNum 5672)]))
           [(js "port", VNum 15672)] eq_refl eq_refl).
Defined.

Lemma app_not_self (s t : jsstring) : t <> [] -> s ++ t <> s.
Proof.
  intros Ht H; apply (f_equal (@List.length Z)) in H.
  rewrite length_app in H; destruct t; [congruence | simpl in H; lia].
Qed.

(** X5: [webApp] returns the workload, its exposure and, unless
    [autoScale] is exactly [false], an autoscale policy.  The three
    agree: the exposure is a [LoadBalancer] listening on and forwarding
    to the workload's port ([options.port] or 80), exposure and policy
    target the workload's name in the workload's namespace, and the
    lower bound of the policy is the workload's replica count
    ([options.replicas] or 3). *)
Theorem X5_webApp_resources (times : value -> value -> value)
    (name : jsstring) (image : value) (options : obj) :
  let replicas := get options (js "replicas") ||| VNum 3 in
  let port := get options (js "port") ||| VNum 80 in
  let namespace := get options (js "namespace") ||| VStr (js "default") in
  exists app s h,
    webApp times name image options =
      RDeployment app :: RService s ::
      (match get options (js "autoScale") with
       | VBool false => []
       | _ => [RHorizontalPodAutoscaler h]
       end) /\
    (Resource.name (Deployment.base app) = name /\
     Deployment.replicas app = replicas /\
     Deployment.port app = port /\
     Resource.namespace (Deployment.base app) = namespace) /\
    (Resource.name (Service.base s) = name ++ js "-service" /\
     Service.target s = name /\
     Service.type s = VStr (js "LoadBalancer") /\
     Service.port s = port /\
     Service.targetPort s = port /\
     Resource.namespace (Service.base s) = namespace) /\
    (Resource.name (HorizontalPodAutoscaler.base h) = name ++ js "-hpa" /\
     HorizontalPodAutoscaler.target h = name /\
     HorizontalPodAutoscaler.minReplicas h = replicas /\
     HorizontalPodAutoscaler.maxReplicas h = times replicas (VNum 3) ||| VNum 10 /\
     Resource.namespace (HorizontalPodAutoscaler.base h) = namespace).
Proof.
  intros replicas port namespace.
  assert (Hr : truthy replicas = true) by (apply or_else_fallback_truthy; reflexivity).
  assert (Hp : truthy port = true) by (apply or_else_fallback_truthy; reflexivity).
  assert (Hn : truthy namespace = true) by (apply or_else_fallback_truthy; reflexivity).
  do 3 eexists; split.
  - unfold webApp.
    destruct (get options (js "autoScale")) as [| |[|]| | | |]; reflexivity.
  - fold replicas port.
    unfold Deployment.constructor, serviceFor, autoscaleFor, Service.constructor,
      HorizontalPodAutoscaler.constructor, spread, workload_name, workload_namespace,
      workload_port, workload_base, target_name, target_port;
      cbn [fold_left fst snd define jsstring_eqb Deployment.base Deployment.port
           Deployment.replicas Service.base Service.target Service.type Service.port
           Service.targetPort HorizontalPodAutoscaler.base HorizontalPodAutoscaler.target
           HorizontalPodAutoscaler.minReplicas HorizontalPodAutoscaler.maxReplicas
           Resource.name Resource.namespace Resource.constructor Resource.with_labels].
    js_simpl.
    fold namespace.
    rewrite !(or_else_truthy replicas _ Hr), !(or_else_truthy port _ Hp),
      !(or_else_truthy namespace _ Hn).
    repeat split.
Qed.

(** X6: [database] returns a stateful workload and a [ClusterIP]
    exposure named [<name>-service] in the same namespace, listening on
    and forwarding to [options.port] or 80.  It passes neither a replica
    count nor a storage class, so the workload always has 1 replica and
    the class [standard], whatever the options hold.  The workload's
    [serviceName] is its own name, which is never the name of the
    exposure in the batch. *)
Theorem X6_database_resources (name : jsstring) (image : value) (options : obj) :
  exists db s,
    database name image options = [RStatefulSet db; RService s] /\
    (StatefulSet.image db = image /\
     StatefulSet.replicas db = VNum 1 /\
     StatefulSet.storageClass db = VStr (js "standard") /\
     StatefulSet.storage db = get options (js "storage") ||| VStr (js "10Gi") /\
     StatefulSet.port db = get options (js "port")) /\
    (Resource.name (Service.base s) = name ++ js "-service" /\
     Service.target s = name /\
     Service.type s = VStr (js "ClusterIP") /\
     Service.port s = get options (js "port") ||| VNum 80 /\
     Service.targetPort s = get options (js "port") ||| VNum 80 /\
     Resource.namespace (Service.base s) = Resource.namespace (StatefulSet.base db)) /\
    path (StatefulSet.toYAML db) ["spec"; "serviceName"]%string = VStr name /\
    Resource.name (Service.base s) <> name.
Proof.
  do 2 eexists; split; [reflexivity |].
  unfold StatefulSet.constructor, serviceFor, Service.constructor, spread,
    workload_name, workload_namespace, workload_port, workload_base,
    target_name, target_port;
    cbn [fold_left StatefulSet.base StatefulSet.image StatefulSet.replicas
         StatefulSet.port StatefulSet.storage StatefulSet.storageClass
         Service.base Service.target Service.type Service.port Service.targetPort
         Resource.name Resource.namespace Resource.constructor].
  js_simpl.
  repeat split.
  - apply or_else_idem.
  - apply or_else_idem.
  - cbn [workload_port StatefulSet.port]; rewrite or_else_idem.
    destruct (truthy (get options (js "port"))) eqn:Hp.
    + rewrite (or_else_truthy _ (VNum 80) Hp); apply or_else_truthy; exact Hp.
    + unfold or_else; rewrite Hp; reflexivity.
  - apply or_else_idem.
  - apply app_not_self; discriminate.
Qed.

(** X7: the document of every resource echoes what it was built from:
    the API version and kind of its class, the name given, and the
    namespace of the options, or [default] when that is missing or
    falsy; the kind and name announced by [deploy] are the same. *)
Theorem X7_document_header (name : jsstring) (options : obj)
    (tgt : target_value) (data : value) (entries' : obj) :
  let ns := get options (js "namespace") ||| VStr (js "default") in
  let says (r : resource) (apiVersion kind : string) :=
    header r = [VStr (js apiVersion); VStr (js kind); VStr name; ns] /\
    announcement r = Announce (js kind) name in
  says (RDeployment (Deployment.constructor name options)) "apps/v1"%string "Deployment"%string /\
  says (RStatefulSet (StatefulSet.constructor name options)) "apps/v1"%string "StatefulSet"%string /\
  says (RService (Service.constructor name tgt options)) "v1"%string "Service"%string /\
  says (RConfigMap (ConfigMap.constructor name data options)) "v1"%string "ConfigMap"%string /\
  says (RSecret (Secret.constructor name entries' options)) "v1"%string "Secret"%string /\
  says (RHorizontalPodAutoscaler (HorizontalPodAutoscaler.constructor name tgt options))
       "autoscaling/v2"%string "HorizontalPodAutoscaler"%string.
Proof.
  intros ns says; unfold says.
  split; [| repeat split].
  unfold Deployment.constructor, header, announcement, announce, toYAML, resource_base;
    cbn [Deployment.base].
  destruct (get options (js "autoHeal")) as [| |[|]| | | |]; split; reflexivity.
Qed.

(** X8: every Deployment is labelled [managed-by: mini-kuber], and
    [auto-heal: 'true'] unless the option [autoHeal] is exactly [false]
    (0, [null] or an empty string do not switch it off); the labels of
    the pod template are the same. *)
Theorem X8_Deployment_labels (name : jsstring) (options : obj) :
  let doc := Deployment.toYAML (Deployment.constructor name options) in
  let labels := path doc ["metadata"; "labels"]%string in
  let pod := path doc ["spec"; "template"; "metadata"; "labels"]%string in
  let auto_heal :=
    if is_false (get options (js "autoHeal")) then VUndefined else VStr (js "true") in
  field labels "managed-by" = VStr (js "mini-kuber") /\
  field labels "auto-heal" = auto_heal /\
  pod = labels.
Proof.
  unfold Deployment.constructor, Deployment.toYAML; cbn [Deployment.base].
  destruct (get options (js "autoHeal")) as [| |[|]| | | |]; repeat split.
Qed.

Lemma get_app (a b : obj) (k : jsstring) :
  get (a ++ b) k = if has a k then get a k else get b k.
Proof.
  induction a as [|[k0 v0] a IH]; simpl; [reflexivity|].
  destruct (jsstring_eqb k0 k); [reflexivity | exact IH].
Qed.

Lemma container_members (fixed : obj) (port env : value) :
  has fixed (js "ports") = false ->
  has fixed (js "env") = false ->
  get (fixed ++ container_ports port ++ container_env env) (js "ports")
  = (if truthy port then VArr [VObj [(js "containerPort", port)]] else VUndefined) /\
  get (fixed ++ container_ports port ++ container_env env) (js "env")
  = match entries env with
    | [] => VUndefined
    | _ :: _ => VArr (env_entries env)
    end.
Proof.
  intros Hp He; rewrite !get_app, Hp, He.
  unfold container_ports, container_env.
  destruct (truthy port); destruct (entries env); split; reflexivity.
Qed.

(** X9: in the container of a Deployment or StatefulSet document,
    [ports] is present exactly when the port is truthy and then holds
    that one container port; [env] is present exactly when the
    environment has entries and then lists them in order as
    [{name, value}] with every value turned into a string. *)
Theorem X9_container_ports_and_env (d : Deployment.t) (s : StatefulSet.t) :
  let expected (port env : value) (c : value) :=
    field c "ports"
    = (if truthy port then VArr [VObj [(js "containerPort", port)]] else VUndefined) /\
    field c "env"
    = match entries env with
      | [] => VUndefined
      | es => VArr (map (fun kv => VObj [(js "name", VStr (fst kv));
                                         (js "value", VStr (ToString (snd kv)))]) es)
      end in
  expected (Deployment.port d) (Deployment.env d) (container_of (Deployment.toYAML d)) /\
  expected (StatefulSet.port s) (StatefulSet.env s) (container_of (StatefulSet.toYAML s)).
Proof.
  intros expected; unfold expected, env_entries; split.
  - destruct (container_members
                [(js "name", VStr (Resource.name (Deployment.base d)));
                 (js "image", Deployment.image d);
                 (js "resources",
                   VObj [(js "requests", VObj [(js "cpu", Deployment.cpuRequest d);
                                               (js "memory", Deployment.memoryRequest d)]);
                         (js "limits", VObj [(js "cpu", Deployment.cpuLimit d);
                                             (js "memory", Deployment.memoryLimit d)])])]
                (Deployment.port d) (Deployment.env d) eq_refl eq_refl) as [Hp He].
    split; [exact Hp |].
    unfold env_entries in He; destruct (entries (Deployment.env d)); exact He.
  - destruct (container_members
                [(js "name", VStr (Resource.name (StatefulSet.base s)));
                 (js "image", StatefulSet.image s);
                 (js "volumeMounts",
                   VArr [VObj [(js "name",
                                 VStr (Resource.name (StatefulSet.base s) ++ js "-storage"));
                               (js "mountPath", VStr (js "/var/lib/data"))]])]
                (StatefulSet.port s) (StatefulSet.env s) eq_refl eq_refl) as [Hp He].
    split; [exact Hp |].
    unfold env_entries in He; destruct (entries (StatefulSet.env s)); exact He.
Qed.

(** A string of Latin-1 characters has no surrogate. *)
Lemma well_formed_js (s : string) : Buffer.well_formed (js s) = true.
Proof.
  unfold js; induction s as [|a s IH]; [reflexivity|].
  cbn [list_ascii_of_string map Buffer.well_formed].
  pose proof (nat_ascii_bounded a) as Ha.
  unfold Buffer.is_high_surrogate, Buffer.is_low_surrogate; settle_tests.
  exact IH.
Qed.

Lemma latin_js (s : string) : latin (js s).
Proof.
  unfold latin, js; induction s as [|a s IH]; [constructor|].
  cbn [list_ascii_of_string map]; constructor; [|exact IH].
  pose proof (nat_ascii_bounded a); lia.
Qed.

Lemma latin_app (s t : jsstring) : latin s -> latin t -> latin (s ++ t).
Proof. intros Hs Ht; apply Forall_app; split; assumption. Qed.

Lemma latin_zeros (n : Z) : latin (zeros n).
Proof.
  unfold latin, zeros; apply Forall_forall; intros c Hc.
  apply repeat_spec in Hc; subst c; lia.
Qed.

Lemma latin_well_formed (s : jsstring) : latin s -> Buffer.well_formed s = true.
Proof.
  induction 1 as [|c s Hc Hs IH]; [reflexivity|].
  cbn [Buffer.well_formed].
  unfold Buffer.is_high_surrogate, Buffer.is_low_surrogate; settle_tests.
  exact IH.
Qed.

Lemma latin_positive_toString (x : Z) : latin (positive_toString x).
Proof.
  unfold positive_toString, decimal.
  destruct (x <? 2 ^ 53); [apply latin_js|].
  destruct (2 ^ 1024 <=? x); [apply latin_js|].
  destruct (shortest _ _ _ _) as [s n].
  destruct (n <=? 21); [apply latin_app; [apply latin_js | apply latin_zeros]|].
  pose proof (latin_js (NilZero.string_of_int (Z.to_int s))) as Hds.
  destruct (js (NilZero.string_of_int (Z.to_int s))) as [|d [|d' rest]];
    [constructor | |];
    inversion Hds as [|? ? Hd Hrest]; subst;
    repeat first [apply latin_js | apply latin_app | assumption
                 | constructor; [assumption|constructor]].
Qed.

(** [String(n)] has no surrogate. *)
Lemma latin_Number_toString (n : Z) : latin (Number_toString n).
Proof.
  unfold Number_toString; destruct (n <? 0);
    [apply latin_app; [apply latin_js|] |]; apply latin_positive_toString.
Qed.

(** [String(n)] on some integer literals: plain digits below 2^53, and
    beyond it the shortest digits that denote the same double, in
    exponent notation from 10^21 on. *)
Lemma Number_toString_samples :
  Number_toString 8080 = js "8080" /\
  Number_toString (-42) = js "-42" /\
  Number_toString 1700000000000 = js "1700000000000" /\
  Number_toString 9007199254740993 = js "9007199254740992" /\
  Number_toString (2 ^ 60) = js "1152921504606847000" /\
  Number_toString (10 ^ 21) = js "1e+21" /\
  Number_toString (2 ^ 70) = js "1.1805916207174113e+21" /\
  Number_toString (2 ^ 1024) = js "Infinity".
Proof. repeat split; vm_compute; reflexivity. Qed.

(** X10: a secret value of any type is stored as the base64 of the
    bytes of [String(value)], so decoding gives back that string, not
    the value: the number 42 comes back as the string [42].  This needs
    the string to have no unpaired surrogate, which holds for numbers,
    booleans, [null] and [undefined]. *)
Theorem X10_secret_value_as_string (v : value) :
  (Buffer.well_formed (ToString v) = true ->
   decode (Secret.encode v) = Some (VStr (ToString v))) /\
  match v with
  | VNum _ | VBool _ | VNull | VUndefined => Buffer.well_formed (ToString v) = true
  | _ => True
  end.
Proof.
  split.
  - intros Hwf; destruct (utf8_roundtrip (ToString v) Hwf) as [Hbytes Hback].
    unfold decode, Secret.encode.
    rewrite (base64_roundtrip Hbytes), Hback; reflexivity.
  - destruct v as [| |[|]|n|s|items|fields]; try exact I;
      first [apply well_formed_js
            | apply latin_well_formed, latin_Number_toString].
Qed.

Lemma X10_secret_value_as_string_witness :
  decode (Secret.encode (VNum 42)) = Some (VStr (js "42")).
Proof.
  destruct (X10_secret_value_as_string (VNum 42)) as [Hback Hwf].
  exact (Hback Hwf).
Defined.

(** ** Further properties of submission *)

(** The first loop stops at the first argument that is not a resource. *)
Lemma collect_stops (rs : list resource) (v : value) (rest : list argument) :
  forall (allYAML : list value) (w : world),
    collect (map AResource rs ++ AValue v :: rest) allYAML w =
    (Throw (TypeError "resource.toYAML is not a function"),
     {| files := files w;
        trace := trace w ++ map Console (map announcement rs) |}).
Proof.
  induction rs as [|r rs IH]; intros allYAML w; simpl.
  - unfold bind, lift; simpl; rewrite app_nil_r, world_eta; reflexivity.
  - unfold bind, lift, console_log, emit; simpl.
    rewrite IH; simpl; rewrite <- !app_assoc; reflexivity.
Qed.

(** X11: a trailing options object is recognised by its [dryRun] key
    alone.  Options without that key, such as [{apply: false}], are
    taken for one more resource: [deploy] counts them, announces the
    resources before them, and throws a [TypeError] that no handler
    catches, having written no file and run no command. *)
Theorem X11_options_need_dryRun_key (p : platform) (rs : list resource)
    (options : obj) (w : world) :
  get options (js "dryRun") = VUndefined ->
  deploy p (map AResource rs ++ [AValue (VObj options)]) w =
  (Throw (TypeError "resource.toYAML is not a function"),
   {| files := files w;
      trace := trace w ++
               map Console (Deploying (List.length rs + 1) :: map announcement rs) |}).
Proof.
  intros Hd.
  assert (Hargs : arguments (map AResource rs ++ [AValue (VObj options)]) =
                  Return (map AResource rs ++ [AValue (VObj options)], VUndefined,
                          negb (is_false (get options (js "apply"))))).
  { unfold arguments; rewrite last_last.
    cbn [typeof_object member and_member argument_truthy truthy outcome_bind].
    rewrite Hd; reflexivity. }
  unfold deploy; rewrite bind_eq; unfold lift at 1; rewrite Hargs; cbv beta iota.
  rewrite bind_eq; unfold console_log at 1; cbv beta iota.
  rewrite bind_eq, collect_stops; cbv beta iota.
  rewrite length_app, length_map; trace_eq.
Qed.

Lemma X11_options_need_dryRun_key_witness :
  fst (deploy sample_platform
         (map AResource sample_resources ++ [AValue (VObj [(js "apply", VBool false)])])
         empty_world)
  = Throw (TypeError "resource.toYAML is not a function").
Proof.
  exact (f_equal fst
           (@X11_options_need_dryRun_key sample_platform sample_resources
              [(js "apply", VBool false)] empty_world eq_refl)).
Defined.

(** X12: when the arguments ask neither for a dry run nor for an apply
    ([dryRun] present but falsy together with [apply: false], or no
    argument at all), [deploy] announces the resources and returns
    [true]: it loads no module, writes no file and runs no command. *)
Theorem X12_neither_dry_run_nor_apply (p : platform) (args : list argument)
    (rs : list resource) (dryRun : value) (w : world) :
  arguments args = Return (map AResource rs, dryRun, false) ->
  truthy dryRun = false ->
  deploy p args w =
  (Return true,
   {| files := files w;
      trace := trace w ++
               map Console (Deploying (List.length rs) :: map announcement rs) |}).
Proof.
  intros Hargs Hdry.
  rewrite (deploy_resources p args rs w Hargs); cbv zeta; rewrite Hdry; reflexivity.
Qed.

Lemma X12_neither_dry_run_nor_apply_witness :
  deploy bare_platform
    (map AResource sample_resources
     ++ [AValue (VObj [(js "dryRun", VBool false); (js "apply", VBool false)])])
    empty_world
  = (Return true,
     {| files := [];
        trace := map Console (Deploying 3 :: map announcement sample_resources) |}) /\
  deploy bare_platform [] empty_world
  = (Return true, {| files := []; trace := [Console (Deploying 0)] |}).
Proof.
  split.
  - exact (@X12_neither_dry_run_nor_apply bare_platform
             (map AResource sample_resources
              ++ [AValue (VObj [(js "dryRun", VBool false); (js "apply", VBool false)])])
             sample_resources (VBool false) empty_world eq_refl eq_refl).
  - exact (@X12_neither_dry_run_nor_apply bare_platform [] [] VUndefined
             empty_world eq_refl eq_refl).
Defined.

(** X13: a trailing [null] makes [deploy] throw at once, on the read of
    [null.dryRun]: nothing is logged, written or run, whatever comes
    before it. *)
Theorem X13_trailing_null_throws (p : platform) (args : list argument) (w : world) :
  exists e, deploy p (args ++ [AValue VNull]) w = (Throw e, w).
Proof.
  eexists; unfold deploy; rewrite bind_eq; unfold lift at 1, arguments.
  rewrite last_last; reflexivity.
Qed.

(** X14: in apply mode [deploy] returns [true] exactly when [js-yaml]
    loads, every document is dumped, the write of the file is performed,
    the command succeeds on the files holding the documents and the
    removal of the file is performed; it has then written the file, run
    the command, logged the success and removed the file, in this order.
    A refused write is diagnosed and makes [deploy] return [false]
    without a command being run nor a removal asked for, the files being
    those the refused write left.  A refused removal after a successful
    command is diagnosed too: [deploy] has then logged the success and
    returns [false], and the file is left. *)
Theorem X14_apply_outcome (p : platform) (args : list argument)
    (rs : list resource) (dryRun : value) (w : world) :
  arguments args = Return (map AResource rs, dryRun, true) ->
  truthy dryRun = false ->
  let result := deploy p args w in
  let announced :=
    trace w ++ map Console (Deploying (List.length rs) :: map announcement rs) in
  let manifest texts :=
    (tempFile p, documents texts) :: remove (files w) (tempFile p) in
  let dumped dump texts :=
    require_js_yaml p = Return dump /\
    dump_all dump (map toYAML rs) = Return texts in
  let succeeds dump texts :=
    dumped dump texts /\
    refuse_write p (tempFile p) (documents texts) (files w) = None /\
    run p (command p) (manifest texts) = Return tt /\
    refuse_unlink p (tempFile p) (manifest texts) = None in
  (fst result = Return true <-> exists dump texts, succeeds dump texts) /\
  (forall dump texts,
     succeeds dump texts ->
     result =
     (Return true,
      {| files := remove (files w) (tempFile p);
         trace := announced
                  ++ [WriteFile (tempFile p) (documents texts); Exec (command p);
                      Console Successful; Unlink (tempFile p)] |})) /\
  (forall dump texts e remaining,
     dumped dump texts ->
     refuse_write p (tempFile p) (documents texts) (files w) = Some (e, remaining) ->
     result =
     (Return false,
      {| files := remaining;
         trace := announced
                  ++ [WriteFile (tempFile p) (documents texts);
                      Console (diagnosis e)] |})) /\
  (forall dump texts e,
     dumped dump texts ->
     refuse_write p (tempFile p) (documents texts) (files w) = None ->
     run p (command p) (manifest texts) = Return tt ->
     refuse_unlink p (tempFile p) (manifest texts) = Some e ->
     result =
     (Return false,
      {| files := manifest texts;
         trace := announced
                  ++ [WriteFile (tempFile p) (documents texts); Exec (command p);
                      Console Successful; Unlink (tempFile p);
                      Console (diagnosis e)] |})).
Proof.
  intros Hargs Hdry result announced manifest dumped succeeds.
  subst result announced dumped succeeds; cbv beta.
  pose proof (deploy_apply_cases p args rs w Hargs Hdry) as H; cbv zeta in H.
  assert (Hsame : forall dump dump' texts texts',
            require_js_yaml p = Return dump ->
            dump_all dump (map toYAML rs) = Return texts ->
            require_js_yaml p = Return dump' ->
            dump_all dump' (map toYAML rs) = Return texts' ->
            texts' = texts).
  { intros d d' t t' Hd Ht Hd' Ht'.
    rewrite Hd in Hd'; inversion Hd'; subst d'; congruence. }
  destruct (require_js_yaml p) as [dump|e] eqn:Hreq.
  2: { rewrite H; cbn [fst]; repeat split.
       - intros Hx; discriminate Hx.
       - intros (d & t & (Hd & _) & _); discriminate Hd.
       - intros d t ((Hd & _) & _); discriminate Hd.
       - intros d t e0 r (Hd & _); discriminate Hd.
       - intros d t e0 (Hd & _); discriminate Hd. }
  destruct (dump_all dump (map toYAML rs)) as [texts|e] eqn:Hdump.
  2: { rewrite H; cbn [fst]; repeat split.
       - intros Hx; discriminate Hx.
       - intros (d & t & (Hd & Ht) & _); inversion Hd; subst d; congruence.
       - intros d t ((Hd & Ht) & _); inversion Hd; subst d; congruence.
       - intros d t e0 r (Hd & Ht); inversion Hd; subst d; congruence.
       - intros d t e0 (Hd & Ht); inversion Hd; subst d; congruence. }
  assert (Hto : forall d t,
            Return dump = Return d /\ dump_all d (map toYAML rs) = Return t ->
            t = texts).
  { intros d t (Hd & Ht); exact (Hsame dump d texts t eq_refl Hdump Hd Ht). }
  destruct (refuse_write p (tempFile p) (documents texts) (files w))
    as [[e remaining]|] eqn:Hwrite.
  { rewrite H; cbn [fst]; repeat split.
    - intros Hx; discriminate Hx.
    - intros (d & t & Hd & Hw & _); rewrite (Hto d t Hd) in Hw; congruence.
    - intros d t (Hd & Hw & _); rewrite (Hto d t Hd) in Hw; congruence.
    - intros d t e0 r Hd Hw; rewrite (Hto d t Hd) in *.
      rewrite Hwrite in Hw; inversion Hw; subst; reflexivity.
    - intros d t e0 Hd Hw; rewrite (Hto d t Hd) in Hw; congruence. }
  fold (manifest texts) in H.
  destruct (run p (command p) (manifest texts)) as [[]|e] eqn:Hrun;
    destruct (refuse_unlink p (tempFile p) (manifest texts)) as [e'|] eqn:Hunlink;
    rewrite H; cbn [fst]; repeat split.
  - intros Hx; discriminate Hx.
  - intros (d & t & Hd & _ & _ & Hu); rewrite (Hto d t Hd) in Hu; congruence.
  - intros d t (Hd & _ & _ & Hu); rewrite (Hto d t Hd) in Hu; congruence.
  - intros d t e0 r Hd Hw; rewrite (Hto d t Hd) in Hw; congruence.
  - intros d t e0 Hd _ _ Hu; rewrite (Hto d t Hd) in *.
    rewrite Hunlink in Hu; inversion Hu; subst; reflexivity.
  - intros _; exists dump, texts; repeat split; assumption.
  - intros d t (Hd & _); rewrite (Hto d t Hd); reflexivity.
  - intros d t e0 r Hd Hw; rewrite (Hto d t Hd) in Hw; congruence.
  - intros d t e0 Hd _ _ Hu; rewrite (Hto d t Hd) in Hu; congruence.
  - intros Hx; discriminate Hx.
  - intros (d & t & Hd & _ & Hr & _); rewrite (Hto d t Hd) in Hr; congruence.
  - intros d t (Hd & _ & Hr & _); rewrite (Hto d t Hd) in Hr; congruence.
  - intros d t e0 r Hd Hw; rewrite (Hto d t Hd) in Hw; congruence.
  - intros d t e0 Hd _ Hr _; rewrite (Hto d t Hd) in Hr; congruence.
  - intros Hx; discriminate Hx.
  - intros (d & t & Hd & _ & Hr & _); rewrite (Hto d t Hd) in Hr; congruence.
  - intros d t (Hd & _ & Hr & _); rewrite (Hto d t Hd) in Hr; congruence.
  - intros d t e0 r Hd Hw; rewrite (Hto d t Hd) in Hw; congruence.
  - intros d t e0 Hd _ Hr _; rewrite (Hto d t Hd) in Hr; congruence.
Qed.

Lemma X14_apply_outcome_witness :
  fst (deploy sample_platform (map AResource sample_resources) empty_world)
  = Return true /\
  deploy unwritable_platform (map AResource sample_resources) empty_world
  = (Return false,
     {| files := [];
        trace :=
          map Console (Deploying 3 :: map announcement sample_resources)
          ++ [WriteFile (tempFile unwritable_platform)
                (js "StatefulSet db" ++ [10] ++ js "---" ++ [10]
                 ++ js "Service db-service" ++ [10] ++ js "---" ++ [10]
                 ++ js "Deployment api" ++ [10]);
              Console (DeploymentError
                         (js "ENOENT: no such file or directory, open"))] |}).
Proof.
  split.
  - destruct (@X14_apply_outcome sample_platform (map AResource sample_resources)
                sample_resources VUndefined empty_world eq_refl eq_refl)
      as [Hiff _].
    apply Hiff.
    exists sample_dump.
    exists [js "StatefulSet db" ++ [10]; js "Service db-service" ++ [10];
            js "Deployment api" ++ [10]].
    repeat split.
  - destruct (@X14_apply_outcome unwritable_platform (map AResource sample_resources)
                sample_resources VUndefined empty_world eq_refl eq_refl)
      as [_ [_ [Hrefused _]]].
    exact (Hrefused sample_dump
             [js "StatefulSet db" ++ [10]; js "Service db-service" ++ [10];
              js "Deployment api" ++ [10]]
             _ _ (conj eq_refl eq_refl) eq_refl).
Defined.

Lemma startsWith_self_app (s rest : jsstring) : startsWith (s ++ rest) s = true.
Proof.
  induction s as [|c s IH]; simpl; [destruct rest; reflexivity|].
  rewrite Z.eqb_refl; exact IH.
Qed.

Lemma includes_skip (before s needle : jsstring) :
  includes s needle = true -> includes (before ++ s) needle = true.
Proof.
  induction before as [|c before IH]; intros H; [exact H|].
  cbn [app includes]; rewrite (IH H); apply orb_true_r.
Qed.

Lemma includes_infix (before s after : jsstring) :
  includes (before ++ s ++ after) s = true.
Proof.
  apply includes_skip.
  destruct (s ++ after) eqn:E; cbn [includes]; rewrite <- E, startsWith_self_app;
    reflexivity.
Qed.

(** X15: the [catch] clause tells its three messages apart by looking
    for [js-yaml] and [kubectl] in the text of the error.  The text of
    a failed command contains the command line, which starts with
    [kubectl], so such a failure is never reported with its own text:
    it is reported as a missing [kubectl], or as a missing [js-yaml]
    when that word occurs in the text (in the path of the temporary
    directory, for one). *)
Theorem X15_command_failure_diagnosis (p : platform) (e : error)
    (before after : jsstring) :
  message e = before ++ command p ++ after ->
  diagnosis e =
    (if includes (message e) (js "js-yaml") then JsYamlRequired else KubectlNotFound).
Proof.
  intros Hm; unfold diagnosis.
  destruct (includes (message e) (js "js-yaml")); [reflexivity|].
  rewrite Hm; unfold command.
  change (js "kubectl apply -f ") with (js "kubectl" ++ js " apply -f ").
  rewrite <- !app_assoc, includes_infix; reflexivity.
Qed.

Lemma X15_command_failure_diagnosis_witness :
  diagnosis {| message := js "Command failed: " ++ command sample_platform |}
  = KubectlNotFound.
Proof.
  exact (@X15_command_failure_diagnosis sample_platform
           {| message := js "Command failed: " ++ command sample_platform |}
           (js "Command failed: ") [] (eq_sym (f_equal (app (js "Command failed: "))
                                                 (app_nil_r (command sample_platform))))).
Defined.

(** The dry-run loop prints a separator and the dump for each document. *)
Lemma print_documents_all (dump : value -> outcome jsstring) (docs : list value) :
  forall (texts : list jsstring) (w : world),
    dump_all dump docs = Return texts ->
    print_documents dump docs w =
    (Return tt,
     {| files := files w;
        trace := trace w ++
                 map Console (flat_map (fun t => [Text (js "---"); Text t]) texts) |}).
Proof.
  induction docs as [|d docs IH]; intros texts w H; simpl in H.
  - inversion H; subst; simpl; unfold ret; rewrite app_nil_r, world_eta; reflexivity.
  - destruct (dump d) as [t|e] eqn:Hd; simpl in H; [|discriminate].
    destruct (dump_all dump docs) as [ts|e] eqn:Hds; simpl in H; [|discriminate].
    inversion H; subst texts.
    cbn [print_documents]; rewrite bind_eq; unfold console_log at 1; cbv beta iota.
    rewrite bind_eq; unfold lift at 1; rewrite Hd; cbv beta iota.
    rewrite bind_eq; unfold console_log at 1; cbv beta iota.
    rewrite (IH ts _ eq_refl); trace_eq.
Qed.

(** X16: a dry run that finds [js-yaml] and can dump every document
    returns [true] after printing, behind the announcements and the
    header, a separator line and the dump for each resource in the order
    the resources were passed; the [apply] option plays no part. *)
Theorem X16_dry_run_output (p : platform) (args : list argument)
    (rs : list resource) (dryRun : value) (apply : bool) (w : world)
    (dump : value -> outcome jsstring) (texts : list jsstring) :
  arguments args = Return (map AResource rs, dryRun, apply) ->
  truthy dryRun = true ->
  require_js_yaml p = Return dump ->
  dump_all dump (map toYAML rs) = Return texts ->
  deploy p args w =
  (Return true,
   {| files := files w;
      trace := trace w ++
               map Console
                 (Deploying (List.length rs) :: map announcement rs
                  ++ DryRunHeader
                     :: flat_map (fun t => [Text (js "---"); Text t]) texts) |}).
Proof.
  intros Hargs Hdry Hreq Hdump.
  rewrite (deploy_resources p args rs w Hargs); cbv zeta; rewrite Hdry.
  rewrite bind_eq; unfold console_log at 1; cbv beta iota.
  rewrite bind_eq; unfold lift at 1; rewrite Hreq; cbv beta iota.
  rewrite bind_eq, (print_documents_all dump _ _ Hdump); cbv beta iota.
  unfold ret; trace_eq.
Qed.

Lemma X16_dry_run_output_witness :
  deploy sample_platform
    (map AResource sample_resources ++ [AValue (VObj [(js "dryRun", VBool true)])])
    empty_world
  = (Return true,
     {| files := [];
        trace :=
          map Console
            (Deploying 3 :: map announcement sample_resources
             ++ [DryRunHeader;
                 Text (js "---"); Text (js "StatefulSet db" ++ [10]);
                 Text (js "---"); Text (js "Service db-service" ++ [10]);
                 Text (js "---"); Text (js "Deployment api" ++ [10])]) |}).
Proof.
  exact (@X16_dry_run_output sample_platform
           (map AResource sample_resources ++ [AValue (VObj [(js "dryRun", VBool true)])])
           sample_resources (VBool true) true empty_world sample_dump
           [js "StatefulSet db" ++ [10]; js "Service db-service" ++ [10];
            js "Deployment api" ++ [10]]
           eq_refl eq_refl eq_refl eq_refl).
Defined.

(** ** Properties of the microservices example *)

Lemma serviceFor_namespace (name : jsstring) (o options : obj) :
  distinct_keys options = true ->
  has options (js "namespace") = false ->
  Resource.namespace
    (Service.base (serviceFor (WDeployment (Deployment.constructor name o)) options))
  = get o (js "namespace") ||| VStr (js "default").
Proof.
  intros Hd Hns.
  unfold serviceFor, Service.constructor;
    cbn [Service.base Resource.constructor Resource.namespace].
  rewrite serviceFor_options by exact Hd; rewrite Hns; js_simpl.
  unfold workload_namespace, workload_base, Deployment.constructor; cbn [Deployment.base].
  destruct (get o (js "autoHeal")) as [| |[|]| | | |];
    cbn [Resource.namespace Resource.constructor Resource.with_labels];
    apply or_else_idem.
Qed.

Lemma Deployment_namespace (name : jsstring) (o : obj) :
  Resource.namespace (Deployment.base (Deployment.constructor name o))
  = get o (js "namespace") ||| VStr (js "default").
Proof.
  unfold Deployment.constructor; cbn [Deployment.base].
  destruct (get o (js "autoHeal")) as [| |[|]| | | |]; reflexivity.
Qed.

(** X17: each creator of workloads adds its resources to [services] and
    leaves the other lists alone, and every resource it adds lives in
    the namespace of the architecture (or in [default] if that is
    falsy).  [createConfiguration] does not pass the namespace on: its
    ConfigMap and Secret always go to [default]. *)
Theorem X17_creators_namespaces (this : MicroserviceArchitecture.t)
    (create : MicroserviceArchitecture.t -> MicroserviceArchitecture.t) :
  In create service_creators ->
  (exists added,
     MicroserviceArchitecture.services (create this)
     = MicroserviceArchitecture.services this ++ added /\
     added <> [] /\
     Forall (fun r => Resource.namespace (resource_base r)
                      = MicroserviceArchitecture.namespace this ||| VStr (js "default"))
            added /\
     MicroserviceArchitecture.configs (create this)
     = MicroserviceArchitecture.configs this /\
     MicroserviceArchitecture.secrets (create this)
     = MicroserviceArchitecture.secrets this) /\
  (exists c s,
     MicroserviceArchitecture.configs (MicroserviceArchitecture.createConfiguration this)
     = MicroserviceArchitecture.configs this ++ [RConfigMap c] /\
     MicroserviceArchitecture.secrets (MicroserviceArchitecture.createConfiguration this)
     = MicroserviceArchitecture.secrets this ++ [RSecret s] /\
     MicroserviceArchitecture.services (MicroserviceArchitecture.createConfiguration this)
     = MicroserviceArchitecture.services this /\
     Resource.namespace (ConfigMap.base c) = VStr (js "default") /\
     Resource.namespace (Secret.base s) = VStr (js "default")).
Proof.
  intros Hin; split.
  - unfold service_creators in Hin; simpl in Hin.
    repeat (destruct Hin as [<- | Hin];
            [ eexists; split; [reflexivity |];
              split; [discriminate |];
              split; [| split; reflexivity];
              repeat constructor; cbn [resource_base];
              first [ apply Deployment_namespace
                    | apply serviceFor_namespace; reflexivity
                    | reflexivity ]
            | ]).
    contradiction.
  - do 2 eexists; repeat split.
Qed.

Lemma X17_creators_namespaces_witness :
  let this := MicroserviceArchitecture.constructor (VStr (js "shop")) in
  Forall (fun r => Resource.namespace (resource_base r) = VStr (js "shop"))
         (MicroserviceArchitecture.services
            (MicroserviceArchitecture.createSharedServices this)).
Proof.
  destruct (@X17_creators_namespaces
              (MicroserviceArchitecture.constructor (VStr (js "shop")))
              MicroserviceArchitecture.createSharedServices
              (or_intror (or_intror (or_intror (or_intror (or_intror (or_intror
                 (or_introl eq_refl))))))))
    as [[added [Hs [_ [Hall _]]]] _].
  cbv zeta; rewrite Hs; exact Hall.
Defined.

(** X18: [build] never returns an architecture.  Whatever the state it
    starts from, the first statement of [createDatabases] evaluates
    [StatefulSet], a name that neither the [require] at the head of the
    module nor a declaration of the module binds, and the error leaves
    [build]; [createEcommerceStack] throws with it.  In a module that
    binds the name, [createDatabases] would return the architecture
    with four StatefulSets and then their four Services added to
    [services]: all in the namespace of the architecture (or in
    [default] if that is falsy), each Service on port 5432 of the
    StatefulSet it is named after. *)
Theorem X18_build_throws (this : MicroserviceArchitecture.t) :
  MicroserviceArchitecture.build this
  = Throw {| message := js "StatefulSet is not defined" |} /\
  createEcommerceStack = Throw {| message := js "StatefulSet is not defined" |} /\
  forall scope : list string,
    In "StatefulSet"%string scope ->
    exists added,
      MicroserviceArchitecture.createDatabases_in scope this
      = Return (MicroserviceArchitecture.push_services this added) /\
      map (fun r => (Resource.kind (resource_base r), Resource.name (resource_base r)))
          added
      = [(js "StatefulSet", js "user-db");
         (js "StatefulSet", js "order-db");
         (js "StatefulSet", js "payment-db");
         (js "StatefulSet", js "inventory-db");
         (js "Service", js "user-db-service");
         (js "Service", js "order-db-service");
         (js "Service", js "payment-db-service");
         (js "Service", js "inventory-db-service")] /\
      Forall (fun r => Resource.namespace (resource_base r)
                       = MicroserviceArchitecture.namespace this ||| VStr (js "default"))
             added /\
      Forall (fun r => match r with
                       | RService s =>
                           Service.target s ++ js "-service"
                           = Resource.name (Service.base s) /\
                           Service.port s = VNum 5432 /\
                           Service.targetPort s = VNum 5432 /\
                           Service.type s = VStr (js "ClusterIP")
                       | RStatefulSet s =>
                           StatefulSet.image s = VStr (js "postgres:13") /\
                           StatefulSet.port s = VNum 5432
                       | _ => False
                       end)
             added.
Proof.
  split; [reflexivity | split; [reflexivity |]].
  intros scope Hin.
  unfold MicroserviceArchitecture.createDatabases_in,
    MicroserviceArchitecture.identifier.
  replace (existsb (String.eqb "StatefulSet") scope) with true
    by (symmetry; apply existsb_exists; exists "StatefulSet"%string;
        split; [exact Hin | apply String.eqb_refl]).
  cbn [outcome_bind]; cbv zeta.
  eexists; split; [reflexivity |].
  split; [reflexivity |].
  split.
  - repeat constructor; cbn [resource_base];
      first [ reflexivity | apply or_else_idem ].
  - repeat constructor.
Qed.

Lemma listed_app (a b : list string) (name : jsstring) :
  MicroserviceArchitecture.listed (a ++ b) name
  = MicroserviceArchitecture.listed a name || MicroserviceArchitecture.listed b name.
Proof. unfold MicroserviceArchitecture.listed; apply existsb_app. Qed.

Lemma listed_includes (names : list string) (name needle : jsstring) :
  Forall (fun n => includes (js n) needle = true) names ->
  MicroserviceArchitecture.listed names name = true ->
  includes name needle = true.
Proof.
  intros Hall H; unfold MicroserviceArchitecture.listed in H.
  apply existsb_exists in H as (n & Hn & Heq).
  apply jsstring_eqb_eq in Heq; subst name.
  rewrite Forall_forall in Hall; exact (Hall n Hn).
Qed.

(** X19: whether [deployWithStaging] submits a resource depends on its
    name alone.  A resource of [services] whose name does not contain
    [-service] is selected by one of the three stages exactly when its
    name is one of the eight listed names without that suffix; any
    other, such as an exposure named [rabbitmq-mgmt], is never
    submitted. *)
Theorem X19_unstaged_resources (this : MicroserviceArchitecture.t) (r : resource) :
  In r (MicroserviceArchitecture.services this) ->
  includes (MicroserviceArchitecture.resource_name r) (js "-service") = false ->
  (staged this r <->
   MicroserviceArchitecture.listed
     ["user-db"; "order-db"; "payment-db"; "inventory-db"; "redis"; "rabbitmq";
      "api-gateway"; "frontend"]%string
     (MicroserviceArchitecture.resource_name r) = true).
Proof.
  intros Hin Hsuffix.
  assert (Hnot : forall names,
            Forall (fun n => includes (js n) (js "-service") = true) names ->
            MicroserviceArchitecture.listed names
              (MicroserviceArchitecture.resource_name r) = false).
  { intros names Hall.
    destruct (MicroserviceArchitecture.listed names _) eqn:E; [|reflexivity].
    rewrite (listed_includes _ _ Hall E) in Hsuffix; discriminate. }
  unfold staged, MicroserviceArchitecture.infrastructure,
    MicroserviceArchitecture.coreServices, MicroserviceArchitecture.dependentServices.
  rewrite !filter_In, Hsuffix; cbn [andb]; rewrite !orb_false_r.
  rewrite (Hnot ["user-service"; "payment-service"; "inventory-service"]%string)
    by (repeat constructor).
  change ["order-service"; "api-gateway"; "frontend"]%string
    with (app ["order-service"]%string ["api-gateway"; "frontend"]%string).
  change ["user-db"; "order-db"; "payment-db"; "inventory-db"; "redis"; "rabbitmq";
          "api-gateway"; "frontend"]%string
    with (app ["user-db"; "order-db"; "payment-db"; "inventory-db"; "redis";
               "rabbitmq"]%string
              ["api-gateway"; "frontend"]%string).
  rewrite !listed_app, (Hnot ["order-service"]%string) by (repeat constructor).
  cbn [orb]; rewrite orb_true_iff.
  intuition discriminate.
Qed.

Lemma X19_unstaged_resources_witness :
  let this :=
    MicroserviceArchitecture.createSharedServices
      (MicroserviceArchitecture.constructor VUndefined) in
  let mgmt := nth 4 (MicroserviceArchitecture.services this) (RConfigMap
                (ConfigMap.constructor [] VUndefined [])) in
  MicroserviceArchitecture.resource_name mgmt = js "rabbitmq-mgmt" /\
  ~ staged this mgmt.
Proof.
  split; [reflexivity |].
  intros H.
  apply (@X19_unstaged_resources
           (MicroserviceArchitecture.createSharedServices
              (MicroserviceArchitecture.constructor VUndefined))
           _ (or_intror (or_intror (or_intror (or_intror (or_introl eq_refl)))))
           eq_refl) in H.
  discriminate H.
Defined.

(** X20: the first stage takes every resource whose name contains
    [-service] but not [user-service], workload or exposure, so the
    order, payment and inventory workloads go out with the
    infrastructure; one whose name also mentions [order], [api-gateway]
    or [frontend] is submitted a second time by the third stage. *)
Theorem X20_stage_overlap (this : MicroserviceArchitecture.t) (r : resource) :
  In r (MicroserviceArchitecture.services this) ->
  includes (MicroserviceArchitecture.resource_name r) (js "-service") = true ->
  includes (MicroserviceArchitecture.resource_name r) (js "user-service") = false ->
  In r (MicroserviceArchitecture.infrastructure this) /\
  (MicroserviceArchitecture.mentions ["order"; "api-gateway"; "frontend"]%string
     (MicroserviceArchitecture.resource_name r) = true ->
   In r (MicroserviceArchitecture.dependentServices this)).
Proof.
  intros Hin Hs Hu.
  unfold MicroserviceArchitecture.infrastructure,
    MicroserviceArchitecture.dependentServices.
  rewrite !filter_In, Hs, Hu; cbn [andb negb].
  split; [split; [exact Hin | apply orb_true_r] |].
  intros Hm; rewrite Hm; split; [exact Hin | apply orb_true_r].
Qed.

Lemma X20_stage_overlap_witness :
  let this :=
    MicroserviceArchitecture.createOrderService
      (MicroserviceArchitecture.constructor VUndefined) in
  let order := nth 0 (MicroserviceArchitecture.services this)
                 (RConfigMap (ConfigMap.constructor [] VUndefined [])) in
  MicroserviceArchitecture.resource_name order = js "order-service" /\
  In order (MicroserviceArchitecture.infrastructure this) /\
  In order (MicroserviceArchitecture.dependentServices this).
Proof.
  destruct (@X20_stage_overlap
              (MicroserviceArchitecture.createOrderService
                 (MicroserviceArchitecture.constructor VUndefined))
              _ (or_introl eq_refl) eq_refl eq_refl) as [H1 H3].
  split; [reflexivity | split; [exact H1 | exact (H3 eq_refl)]].
Defined.
